(** * sqlite3-util-go: the trace-mask helper and the tracing example

    A shallow embedding of

    - package [sqlite3tracemask] ([Config], [DecodeStringArg],
      [GenerateStringArg], [GenerateBoolArgs], [EventMask]), and
    - the example program [_example/trysqlite3trace1/main.go]
      ([traceCallback], [txWrap], [main], [dbMain]),

    followed by the properties of the specification that concern them.

    Conventions.  A Go [string] is a sequence of bytes: Rocq's [string].
    A [rune] and a [uint] are integers in [Z]; the only arithmetic the code
    does on them is the bitwise or, which never leaves the range of the
    type.  A Go [error] is [option] of an error value, [None] being [nil]. *)

From Equations Require Import Equations.
From Stdlib Require Import ZArith List Bool String Ascii Lia.
From Stdlib Require DecimalString HexadecimalString.
Import ListNotations.

Local Open Scope string_scope.
Local Open Scope Z_scope.

(** ** Go strings and [for _, c := range s] *)

Module GoString.

Definition rune := Z.

Definition byteVal (a : ascii) : Z := Z.of_N (N_of_ascii a).

Definition bytes (s : string) : list Z := map byteVal (list_ascii_of_string s).

(** The constants of the decoder (Go's [unicode/utf8] and the runtime). *)
Definition runeError : rune := 0xFFFD.
Definition runeSelf : Z := 0x80.
Definition maxRune : rune := 0x10FFFF.
Definition surrogateMin : rune := 0xD800.
Definition surrogateMax : rune := 0xDFFF.
Definition t2 : Z := 0xC0.
Definition t3 : Z := 0xE0.
Definition t4 : Z := 0xF0.
Definition t5 : Z := 0xF8.
Definition maskx : Z := 0x3F.
Definition mask2 : Z := 0x1F.
Definition mask3 : Z := 0x0F.
Definition mask4 : Z := 0x07.
Definition rune1Max : rune := 0x7F.
Definition rune2Max : rune := 0x7FF.
Definition rune3Max : rune := 0xFFFF.
Definition locb : Z := 0x80.
Definition hicb : Z := 0xBF.

Definition isCont (b : Z) : bool := (locb <=? b) && (b <=? hicb).

(** One step of a range loop over the bytes [s]: the code point at the
    front and the number of bytes it takes.  A byte below [runeSelf] is its
    own code point; an ill-formed or truncated sequence gives [runeError]
    and advances by a single byte. *)
Definition decodeRune (s : list Z) : rune * nat :=
  match s with
  | [] => (runeError, 1%nat)
  | b0 :: rest =>
    if b0 <? runeSelf then (b0, 1%nat)
    else if (t2 <=? b0) && (b0 <? t3) then
      match rest with
      | b1 :: _ =>
        if isCont b1 then
          let r := Z.lor (Z.shiftl (Z.land b0 mask2) 6) (Z.land b1 maskx) in
          if rune1Max <? r then (r, 2%nat) else (runeError, 1%nat)
        else (runeError, 1%nat)
      | _ => (runeError, 1%nat)
      end
    else if (t3 <=? b0) && (b0 <? t4) then
      match rest with
      | b1 :: b2 :: _ =>
        if isCont b1 && isCont b2 then
          let r := Z.lor (Z.lor (Z.shiftl (Z.land b0 mask3) 12)
                                (Z.shiftl (Z.land b1 maskx) 6))
                         (Z.land b2 maskx) in
          if (rune2Max <? r) && negb ((surrogateMin <=? r) && (r <=? surrogateMax))
          then (r, 3%nat) else (runeError, 1%nat)
        else (runeError, 1%nat)
      | _ => (runeError, 1%nat)
      end
    else if (t4 <=? b0) && (b0 <? t5) then
      match rest with
      | b1 :: b2 :: b3 :: _ =>
        if isCont b1 && isCont b2 && isCont b3 then
          let r := Z.lor (Z.lor (Z.lor (Z.shiftl (Z.land b0 mask4) 18)
                                       (Z.shiftl (Z.land b1 maskx) 12))
                                (Z.shiftl (Z.land b2 maskx) 6))
                         (Z.land b3 maskx) in
          if (rune3Max <? r) && (r <=? maxRune)
          then (r, 4%nat) else (runeError, 1%nat)
        else (runeError, 1%nat)
      | _ => (runeError, 1%nat)
      end
    else (runeError, 1%nat)
  end.

Lemma decodeRune_width_pos (s : list Z) : (1 <= snd (decodeRune s))%nat.
Proof.
  unfold decodeRune.
  repeat match goal with
         | |- context [match ?x with _ => _ end] => destruct x
         end; simpl; lia.
Qed.

Lemma decodeRune_progress (b : Z) (rest : list Z) :
  (List.length (skipn (snd (decodeRune (b :: rest))) (b :: rest))
   < List.length (b :: rest))%nat.
Proof.
  pose proof (decodeRune_width_pos (b :: rest)) as Hw.
  rewrite length_skipn. simpl List.length. lia.
Qed.

(** The code points a range loop over [s] visits, in order. *)
Equations? rangeBytes (s : list Z) : list rune by wf (List.length s) lt :=
  rangeBytes [] := [];
  rangeBytes (b :: rest) :=
    fst (decodeRune (b :: rest))
      :: rangeBytes (skipn (snd (decodeRune (b :: rest))) (b :: rest)).
Proof. apply decodeRune_progress. Qed.

Definition range (s : string) : list rune := rangeBytes (bytes s).

End GoString.

(** ** Package [sqlite3tracemask] *)

Module sqlite3tracemask.
Import GoString.

Record Config : Type := mkConfig {
  Stmt : bool;
  Profile : bool;
  Row : bool;
  Close : bool
}.

(** The zero value of the struct, what [var maskConf Config] holds. *)
Definition zeroConfig : Config := mkConfig false false false false.

Definition stmtArg : string := "trace-stmt".
Definition profileArg : string := "trace-profile".
Definition rowArg : string := "trace-row".
Definition closeArg : string := "trace-close".

(** The bits [sqlite3.TraceStmt], [sqlite3.TraceProfile], [sqlite3.TraceRow]
    and [sqlite3.TraceClose] belong to the driver package, which is not part
    of this repository: they are taken as a parameter. *)
Record TraceBits : Type := mkTraceBits {
  TraceStmt : Z;
  TraceProfile : Z;
  TraceRow : Z;
  TraceClose : Z
}.

(** The values SQLite gives them ([SQLITE_TRACE_STMT] and the like). *)
Definition sqliteTraceBits : TraceBits := mkTraceBits 0x01 0x02 0x04 0x08.

(** A rune literal such as ['s']. *)
Definition runeLit (a : ascii) : rune := byteVal a.

(** The body of the loop of [DecodeStringArg]: the [switch] on one rune. *)
Definition decodeRuneCase (dest : Config) (c : rune) : Config :=
  if c =? runeLit "s" then mkConfig true (Profile dest) (Row dest) (Close dest)
  else if c =? runeLit "p" then mkConfig (Stmt dest) true (Row dest) (Close dest)
  else if c =? runeLit "r" then mkConfig (Stmt dest) (Profile dest) true (Close dest)
  else if c =? runeLit "c" then mkConfig (Stmt dest) (Profile dest) (Row dest) true
  else dest.

(** [DecodeStringArg(dest, s)]; the updated [*dest] is the result. *)
Definition DecodeStringArg (dest : Config) (s : string) : Config :=
  fold_left decodeRuneCase (range s) dest.

Definition GenerateStringArg (c : Config) : string :=
  let sf : list string := [] in
  let sf := if Stmt c then (sf ++ ["s"])%list else sf in
  let sf := if Profile c then (sf ++ ["p"])%list else sf in
  let sf := if Row c then (sf ++ ["r"])%list else sf in
  let sf := if Close c then (sf ++ ["c"])%list else sf in
  String.concat EmptyString sf.

Definition GenerateBoolArgs (c : Config) : string :=
  let sf : list string := [] in
  let sf := if Stmt c then (sf ++ [stmtArg])%list else sf in
  let sf := if Profile c then (sf ++ [profileArg])%list else sf in
  let sf := if Row c then (sf ++ [rowArg])%list else sf in
  let sf := if Close c then (sf ++ [closeArg])%list else sf in
  ("--" ++ String.concat " --" sf)%string.

Definition EventMask (tb : TraceBits) (c : Config) : Z :=
  let mask := 0 in
  let mask := if Stmt c then Z.lor mask (TraceStmt tb) else mask in
  let mask := if Profile c then Z.lor mask (TraceProfile tb) else mask in
  let mask := if Row c then Z.lor mask (TraceRow tb) else mask in
  let mask := if Close c then Z.lor mask (TraceClose tb) else mask in
  mask.

End sqlite3tracemask.

(** ** The example program [_example/trysqlite3trace1] *)

Module trysqlite3trace1.
Import GoString sqlite3tracemask.

(** The newline of the format strings. *)
Definition nl : string := String (ascii_of_nat 10) EmptyString.

(** *** [traceCallback] *)

(** [sqlite3.Error] and [sqlite3.TraceInfo] are the driver's structs; the
    fields are the ones the callback reads. *)
Record Error : Type := mkError {
  Code : Z;
  ExtendedCode : Z;
  errText : string
}.

Record TraceInfo : Type := mkTraceInfo {
  EventCode : Z;
  ConnHandle : Z;
  StmtHandle : Z;
  StmtOrTrigger : string;
  ExpandedSQL : string;
  RunTimeNanosec : Z;
  DBError : Error
}.

(** The verbs of package [fmt] that the program uses, as a parameter:
    [%x] and [%d] on integers, [%q] on a string, [%#v] on the driver's
    error struct. *)
Record Fmt : Type := mkFmt {
  fmt_x : Z -> string;
  fmt_d : Z -> string;
  fmt_q : string -> string;
  fmt_sharp_v : Error -> string
}.

Section Callback.
Variable fmt : Fmt.

(** The local [dbErrText] once the first [if] has run. *)
Definition dbErrText (info : TraceInfo) : string :=
  if negb (Code (DBError info) =? 0) || negb (ExtendedCode (DBError info) =? 0)
  then "; DB error: " ++ fmt_sharp_v fmt (DBError info)
  else ".".

(** The local [expandedText] once the second [if] has run. *)
Definition expandedText (info : TraceInfo) : string :=
  if negb (String.eqb (ExpandedSQL info) EmptyString) then
    if String.eqb (ExpandedSQL info) (StmtOrTrigger info)
    then " no change when expanded"
    else " expanded {" ++ fmt_q fmt (ExpandedSQL info) ++ "}"
  else EmptyString.

(** [traceCallback]: the text it writes to standard output and the
    [int] it returns. *)
Definition traceCallback (info : TraceInfo) : string * Z :=
  ("Trace: ev 0x" ++ fmt_x fmt (EventCode info)
     ++ ", conn 0x" ++ fmt_x fmt (ConnHandle info)
     ++ ", stmt 0x" ++ fmt_x fmt (StmtHandle info)
     ++ " {" ++ fmt_q fmt (StmtOrTrigger info) ++ "}"
     ++ expandedText info
     ++ "; " ++ fmt_d fmt (RunTimeNanosec info) ++ " ns"
     ++ dbErrText info ++ nl,
   0).
End Callback.

(** *** State, outcomes and the calls the program makes *)

(** The package-level variables of [main.go]. *)
Record Globals : Type := mkGlobals {
  nRows : Z;
  rowSeqNum : Z;
  noteTextPattern : string;
  rollbackAlways : bool
}.

(** What the program does to the world outside it, in order: writes to
    standard output and to the logger, and calls into [database/sql].  The
    helper functions of [main.go] that run statements ([dbSetup],
    [dbDoInsert], ...) and the unit of work handed to [txWrap] appear as
    one call each. *)
Inductive Call : Type :=
| CallPrint (text : string)
| CallLog (text : string)
| CallRegister (name : string) (eventMask : Z) (wantExpandedSQL : bool)
| CallOpen (driverName filename : string)
| CallClose
| CallPing
| CallHelper (name : string)
| CallBegin
| CallTxFunc
| CallCommit
| CallRollback.

Section Program.
(** Error values other than [nil], the values a [panic] carries, and the
    state of the database. *)
Context {ErrVal PanicVal D : Type}.

Definition error : Type := option ErrVal.

(** How a call of a Go function ends. *)
Inductive Outcome (A : Type) : Type :=
| Returned (a : A)
| Panicked (p : PanicVal).
Arguments Returned {A} a.
Arguments Panicked {A} p.

(** A [*sql.Tx] and a [*sql.DB], by the methods the program calls on
    them.  Each method returns an [error] and may change the database. *)
Record Tx : Type := mkTx {
  Tx_Commit : D -> error * D;
  Tx_Rollback : D -> error * D
}.

Record DB : Type := mkDB {
  DB_Begin : D -> (Tx + ErrVal) * D;
  DB_Ping : D -> error * D;
  DB_Close : D -> error * D
}.

Record State : Type := mkState {
  globals : Globals;
  store : D;
  calls : list Call
}.

Definition M (A : Type) : Type := State -> Outcome A * State.

Definition ret {A : Type} (a : A) : M A := fun s => (Returned a, s).

Definition bind {A B : Type} (m : M A) (k : A -> M B) : M B :=
  fun s =>
    match m s with
    | (Returned a, s') => k a s'
    | (Panicked p, s') => (Panicked p, s')
    end.

(** [defer d] at the head of [body]: [d] runs when [body] is left,
    by a return or by a panic, and the panic goes on after it. *)
Definition deferring {A B : Type} (d : State -> B * State) (body : M A) : M A :=
  fun s =>
    let '(o, s1) := body s in
    let '(_, s2) := d s1 in
    (o, s2).

Definition logCall (c : Call) (s : State) : State :=
  mkState (globals s) (store s) (calls s ++ [c])%list.

(** A method of [database/sql] called on the current state. *)
Definition callMethod {A : Type} (c : Call) (f : D -> A * D) (s : State) : A * State :=
  let '(a, d) := f (store s) in
  (a, mkState (globals s) d (calls s ++ [c])%list).

(** Code of the program that is handed a database or a transaction: it
    may read and write the package-level variables and the database, and
    it returns or panics. *)
Definition Work (A : Type) : Type := Globals -> D -> Outcome A * Globals * D.

Definition callWork {A : Type} (c : Call) (f : Work A) : M A :=
  fun s =>
    let '(o, g, d) := f (globals s) (store s) in
    (o, mkState g d (calls s ++ [c])%list).

(** *** [txWrap] *)

(** The function literal that [txWrap] defers, over the variables it
    captures: [tx], the flag [panicked] and the named result [err].
    It returns the value of [err] it leaves behind. *)
Definition txWrapDeferred (tx : Tx) (panicked : bool) (err : error)
    (s : State) : error * State :=
  if panicked then
    let '(_, s') := callMethod CallRollback (Tx_Rollback tx) s in
    (err, s')
  else if rollbackAlways (globals s) then
    let '(_, s') := callMethod CallRollback (Tx_Rollback tx) s in
    (err, s')
  else
    let '(commitErr, s') := callMethod CallCommit (Tx_Commit tx) s in
    (commitErr, s').

Definition txWrap (db : DB) (txFunc : Tx -> Work unit) : M error :=
  fun s0 =>
    let panicked := true in
    let '(r, s1) := callMethod CallBegin (DB_Begin db) s0 in
    match r with
    | inr txErr => (Returned (Some txErr), s1)
    | inl tx =>
      match callWork CallTxFunc (txFunc tx) s1 with
      | (Panicked p, s2) =>
        (* the deferred function runs, then the panic goes on *)
        let '(_, s3) := txWrapDeferred tx panicked None s2 in
        (Panicked p, s3)
      | (Returned _, s2) =>
        let panicked := false in
        (* [return nil] sets [err], then the deferred function runs *)
        let '(err, s3) := txWrapDeferred tx panicked None s2 in
        (Returned err, s3)
      end
    end.

(** *** [dbMain] and [main] *)

(** What the rest of the program needs from outside [main.go]'s two
    functions: the verbs of [fmt] on an [error], the panic value that
    [log.Panic] builds from its text, [sql.Open], the driver's bits, and
    the helper functions that run the statements. *)
Record Externals : Type := mkExternals {
  fmt : Fmt;
  traceBits : TraceBits;
  fmt_v : ErrVal -> string;
  fmt_sharp_plus_v : ErrVal -> string;
  panicString : string -> PanicVal;
  sqlOpen : string -> string -> D -> (DB + ErrVal) * D;
  dbSetup : DB -> Work unit;
  dbDoInsert : DB -> Work unit;
  txDoInsert : Tx -> Work unit;
  dbDoInsertPrepared : DB -> Work unit;
  txDoInsertPrepared : Tx -> Work unit;
  dbDoSelect : DB -> Work unit;
  txDoSelect : Tx -> Work unit;
  dbDoSelectPrepared : DB -> Work unit;
  txDoSelectPrepared : Tx -> Work unit
}.

Variable ext : Externals.

Notation "x <- m ;; k" := (bind m (fun x => k))
  (at level 61, m at next level, right associativity).
Notation "m ;;; k" := (bind m (fun _ => k))
  (at level 61, right associativity).

(** [log.Panic(err)] and [log.Panicf(format, err)]: the text goes to the
    logger and is the value of the panic. *)
Definition logPanic {A : Type} (text : string) : M A :=
  fun s => (Panicked (panicString ext text), logCall (CallLog text) s).

Definition wrapperErrorText (e : ErrVal) : string :=
  "Transaction Wrapper error: " ++ fmt_v ext e ++ nl.

(** [err = txWrap(db, f); if err != nil { log.Panicf(...) }] *)
Definition txWrapOrPanic (db : DB) (f : Tx -> Work unit) : M unit :=
  err <- txWrap db f ;;
  match err with
  | Some e => logPanic (wrapperErrorText e)
  | None => ret tt
  end.

Definition dbMain (filename : string) : M Z :=
  fun s0 =>
    let '(r, s1) :=
      callMethod (CallOpen "sqlite3_tracing" filename)
                 (sqlOpen ext "sqlite3_tracing" filename) s0 in
    match r with
    | inr err =>
      (Returned 1,
       logCall (CallPrint ("Failed to open database '" ++ filename ++ "': "
                             ++ fmt_sharp_plus_v ext err ++ nl)) s1)
    | inl db =>
      deferring (callMethod CallClose (DB_Close db))
        (err <- (fun s => let '(e, s') := callMethod CallPing (DB_Ping db) s in
                          (Returned e, s')) ;;
         match err with
         | Some e => logPanic (fmt_v ext e)
         | None =>
           callWork (CallHelper "dbSetup") (dbSetup ext db) ;;;
           callWork (CallHelper "dbDoInsert") (dbDoInsert ext db) ;;;
           txWrapOrPanic db (txDoInsert ext) ;;;
           callWork (CallHelper "dbDoInsertPrepared") (dbDoInsertPrepared ext db) ;;;
           txWrapOrPanic db (txDoInsertPrepared ext) ;;;
           callWork (CallHelper "dbDoSelect") (dbDoSelect ext db) ;;;
           txWrapOrPanic db (txDoSelect ext) ;;;
           callWork (CallHelper "dbDoSelectPrepared") (dbDoSelectPrepared ext db) ;;;
           txWrapOrPanic db (txDoSelectPrepared ext) ;;;
           ret 0
         end)
        s1
    end.

(** The command line once [flag.Parse] has accepted it: one field per
    flag, with the flag's default where it was not given. *)
Record CmdLine : Type := mkCmdLine {
  arg_db : string;
  arg_search_pat : string;
  arg_nrows : Z;
  arg_rollback : bool;
  arg_trace : Config;
  arg_trace_mask : string
}.

(** How the process ends: [os.Exit(code)], or a panic nobody recovers. *)
Inductive Exit : Type :=
| ExitCode (code : Z)
| ExitPanic (p : PanicVal).

Definition main (args : CmdLine) (s0 : State) : Exit * State :=
  (* [flag.Parse()] stores each flag in the variable registered for it *)
  let dbFilename := arg_db args in
  let maskStr := arg_trace_mask args in
  let maskConf := arg_trace args in
  let s1 := mkState (mkGlobals (arg_nrows args) (rowSeqNum (globals s0))
                               (arg_search_pat args) (arg_rollback args))
                    (store s0) (calls s0) in
  let maskConf := DecodeStringArg maskConf maskStr in
  let s2 := logCall (CallPrint ("Short form of mask: {"
                                  ++ GenerateStringArg maskConf ++ "}" ++ nl)) s1 in
  let s3 := logCall (CallPrint ("Long form of mask (separate flags): {"
                                  ++ GenerateBoolArgs maskConf ++ "}" ++ nl)) s2 in
  let s4 := logCall (CallPrint ("Numeric mask: 0x"
                                  ++ fmt_x (fmt ext) (EventMask (traceBits ext) maskConf)
                                  ++ nl)) s3 in
  let s5 := logCall (CallRegister "sqlite3_tracing"
                                  (EventMask (traceBits ext) maskConf) true) s4 in
  if String.eqb dbFilename EmptyString then
    (ExitCode 3,
     logCall (CallPrint ("SQLite database filename not specified. Use --db=..." ++ nl)) s5)
  else
    match dbMain dbFilename s5 with
    | (Returned code, s6) => (ExitCode code, s6)
    | (Panicked p, s6) => (ExitPanic p, s6)
    end.

End Program.

Arguments Returned {PanicVal A} a.
Arguments Panicked {PanicVal A} p.
Arguments ExitCode {PanicVal} code.
Arguments ExitPanic {PanicVal} p.

End trysqlite3trace1.

(** ** The draft wrapper [TxWrapErr] *)

Module WrapErr.
Import trysqlite3trace1.

Section Draft.
Context {ErrVal PanicVal D : Type}.

(** What the deferred function of [TxWrapErr] makes of the value [p] that
    [recover()] returns: [asError p] is [p] itself when its dynamic type is
    an [error] (the [case error] of the type switch), and [errorf p] is
    [fmt.Errorf("%s", p)] (the [default] case).  A panic carries a value
    other than [nil]. *)
Record Recover : Type := mkRecover {
  asError : PanicVal -> option ErrVal;
  errorf : PanicVal -> ErrVal
}.

Variable rc : Recover.

(** The error that the type switch stores in [err]. *)
Definition recovered (p : PanicVal) : ErrVal :=
  match asError rc p with
  | Some e => e
  | None => errorf rc p
  end.

(** The function literal that [TxWrapErr] defers.  [o] is how the unit of
    work ended: after [return txFunc(tx)] the named result [err] holds what
    the unit of work returned, after a panic it still holds [nil] and
    [recover()] gives the value of the panic.  The result is the value of
    [err] the deferred function leaves behind; the panic, if any, is over. *)
Definition TxWrapErrDeferred (tx : @Tx ErrVal D) (o : @Outcome PanicVal (@error ErrVal))
    (s : @State D) : @error ErrVal * @State D :=
  let err : @error ErrVal :=
    match o with
    | Panicked p => Some (recovered p)
    | Returned e => e
    end in
  match err with
  | Some e =>
    let '(_, s') := callMethod CallRollback (Tx_Rollback tx) s in
    (Some e, s')
  | None =>
    if rollbackAlways (globals s) then
      let '(_, s') := callMethod CallRollback (Tx_Rollback tx) s in
      (None, s')
    else
      let '(commitErr, s') := callMethod CallCommit (Tx_Commit tx) s in
      (commitErr, s')
  end.

Definition TxWrapErr (db : @DB ErrVal D)
    (txFunc : @Tx ErrVal D -> @Work PanicVal D (@error ErrVal)) : @M PanicVal D (@error ErrVal) :=
  fun s0 =>
    let '(r, s1) := callMethod CallBegin (DB_Begin db) s0 in
    match r with
    | inr txErr => (Returned (Some txErr), s1)
    | inl tx =>
      let '(o, s2) := callWork CallTxFunc (txFunc tx) s1 in
      let '(err, s3) := TxWrapErrDeferred tx o s2 in
      (Returned err, s3)
    end.

End Draft.

End WrapErr.

(** ** The functions of [main.go] that run the statements *)

Module Statements.
Import trysqlite3trace1.

(** 'DDL' and 'DML', and the prefix of the notes. *)
Definition tableDDL : string :=
  "CREATE TABLE t1 (" ++ nl
    ++ " id INTEGER PRIMARY KEY AUTOINCREMENT," ++ nl
    ++ " seq_num INTEGER NOT NULL," ++ nl
    ++ " note VARCHAR NOT NULL" ++ nl
    ++ ")".

Definition insertDML : string := "INSERT INTO t1 (seq_num, note) VALUES (?, ?)".
Definition selectDML : string := "SELECT id, seq_num, note FROM t1 WHERE note LIKE ?".

Definition noteTextPrefix : string := "bla-1234567890".

(** Go's [int], taken at 64 bits: the value that [z] wraps around to. *)
Definition wrapInt (z : Z) : Z := (z + 2 ^ 63) mod 2 ^ 64 - 2 ^ 63.

(** The arguments that the program binds to a statement. *)
Inductive Arg : Type :=
| ArgInt (z : Z)
| ArgString (s : string).

(** The calls into [database/sql] and [log] that these functions make. *)
Inductive SqlCall : Type :=
| SqlExec (query : string) (args : list Arg)
| SqlPrepare (query : string)
| SqlQuery (query : string) (args : list Arg)
| StmtExec (args : list Arg)
| StmtQuery (args : list Arg)
| StmtClose
| RowsNext
| RowsErr
| RowsClose
| LogPrintf (text : string)
| LogPanic (text : string).

Section Helpers.
Context {ErrVal PanicVal D : Type}.

(** [sql.Result]: what [LastInsertId()] and [RowsAffected()] return. *)
Record Result : Type := mkResult {
  LastInsertId : Z + ErrVal;
  RowsAffected : Z + ErrVal
}.

(** [*sql.Rows]: [Next()] is true [Rows_count] times and then false, [Err()]
    returns [Rows_Err]. *)
Record Rows : Type := mkRows {
  Rows_count : nat;
  Rows_Err : @error ErrVal;
  Rows_Close : D -> @error ErrVal * D
}.

(** [*sql.Stmt]. *)
Record SqlStmt : Type := mkSqlStmt {
  Stmt_Exec : list Arg -> D -> (Result + ErrVal) * D;
  Stmt_Query : list Arg -> D -> (Rows + ErrVal) * D;
  Stmt_Close : D -> @error ErrVal * D
}.

(** The methods that run statements, which [*sql.DB] and [*sql.Tx] both
    have. *)
Record Conn : Type := mkConn {
  Conn_Exec : string -> list Arg -> D -> (Result + ErrVal) * D;
  Conn_Prepare : string -> D -> (SqlStmt + ErrVal) * D;
  Conn_Query : string -> list Arg -> D -> (Rows + ErrVal) * D
}.

(** What the functions take from [fmt] and [log]. *)
Record LogEnv : Type := mkLogEnv {
  log_fmt_d : Z -> string;
  log_fmt_v : ErrVal -> string;
  log_panicString : string -> PanicVal
}.

Variable le : LogEnv.

Record HState : Type := mkHState {
  hglobals : Globals;
  hstore : D;
  htrace : list SqlCall
}.

Definition H (A : Type) : Type := HState -> @Outcome PanicVal A * HState.

Definition hret {A : Type} (a : A) : H A := fun st => (Returned a, st).

Definition hbind {A B : Type} (m : H A) (k : A -> H B) : H B :=
  fun st =>
    match m st with
    | (Returned a, st') => k a st'
    | (Panicked p, st') => (Panicked p, st')
    end.

Notation "x <- m ;; k" := (hbind m (fun x => k))
  (at level 61, m at next level, right associativity).
Notation "m ;;; k" := (hbind m (fun _ => k))
  (at level 61, right associativity).

(** [defer d] at the head of [body]. *)
Definition hdefer {A B : Type} (d : H B) (body : H A) : H A :=
  fun st =>
    let '(o, st1) := body st in
    let '(_, st2) := d st1 in
    (o, st2).

Definition note (c : SqlCall) (st : HState) : HState :=
  mkHState (hglobals st) (hstore st) (htrace st ++ [c])%list.

(** A method of [database/sql] called on the current state. *)
Definition sqlCall {A : Type} (c : SqlCall) (f : D -> A * D) : H A :=
  fun st =>
    let '(a, d) := f (hstore st) in
    (Returned a, mkHState (hglobals st) d (htrace st ++ [c])%list).

(** [log.Panic(err)]. *)
Definition logPanicErr {A : Type} (err : ErrVal) : H A :=
  fun st =>
    (Panicked (log_panicString le (log_fmt_v le err)),
     note (LogPanic (log_fmt_v le err)) st).

Definition logPrintf (text : string) : H unit :=
  fun st => (Returned tt, note (LogPrintf text) st).

(** *** [dbSetup] *)

Definition dbSetup (db : Conn) : H unit :=
  r <- sqlCall (SqlExec "DROP TABLE IF EXISTS t1" [])
               (Conn_Exec db "DROP TABLE IF EXISTS t1" []) ;;
  match r with
  | inr err => logPanicErr err
  | inl _ =>
    r <- sqlCall (SqlExec tableDDL []) (Conn_Exec db tableDDL []) ;;
    match r with
    | inr err => logPanicErr err
    | inl _ => hret tt
    end
  end.

(** *** [resultDoCheck] *)

Definition resultDoCheck (result : Result) (callerDescr : string) (callIndex : Z)
    : H unit :=
  match LastInsertId result with
  | inr err => logPanicErr err
  | inl lastID =>
    match RowsAffected result with
    | inr err => logPanicErr err
    | inl nAffected =>
      logPrintf ("Exec result for " ++ callerDescr
                   ++ " (" ++ log_fmt_d le callIndex
                   ++ "): ID = " ++ log_fmt_d le lastID
                   ++ ", affected = " ++ log_fmt_d le nAffected ++ nl)
    end
  end.

(** *** The insert loop *)

(** [rowSeqNum++]. *)
Definition incrRowSeqNum : H unit :=
  fun st =>
    (Returned tt,
     mkHState (mkGlobals (nRows (hglobals st))
                         (wrapInt (rowSeqNum (hglobals st) + 1))
                         (noteTextPattern (hglobals st))
                         (rollbackAlways (hglobals st)))
              (hstore st) (htrace st)).

(** The body of the loop that the four insert functions have in common:
    [exec] is the method that runs the statement with the two arguments and
    [call] the call it is recorded as. *)
Definition insertStep (exec : list Arg -> D -> (Result + ErrVal) * D)
    (call : list Arg -> SqlCall) (Descr : string) (i : Z) : H unit :=
  fun st =>
    let args := [ArgInt (rowSeqNum (hglobals st));
                 ArgString (noteTextPrefix ++ Descr)] in
    (r <- sqlCall (call args) (exec args) ;;
     match r with
     | inr err => logPanicErr err
     | inl result => resultDoCheck result Descr i ;;; incrRowSeqNum
     end) st.

(** The body of the loop leaves [nRows] as it is. *)
Lemma insertStep_nRows (exec : list Arg -> D -> (Result + ErrVal) * D)
    (call : list Arg -> SqlCall) (Descr : string) (i : Z) (st : HState) :
  nRows (hglobals (snd (insertStep exec call Descr i st))) = nRows (hglobals st).
Proof.
  unfold insertStep, hbind, sqlCall, resultDoCheck, logPanicErr, logPrintf,
    incrRowSeqNum, note.
  destruct (exec _ (hstore st)) as [[result|err] d]; cbn; [|reflexivity].
  destruct (LastInsertId result); [|reflexivity].
  destruct (RowsAffected result); reflexivity.
Qed.

Definition inspect {A : Type} (a : A) : {b : A | a = b} := exist _ a eq_refl.

(** [for i := 0; i < nRows; i++ { ... }], from the index [i] on.  The index
    stays below [nRows], so that [i++] does not wrap around. *)
Equations? insertLoop (exec : list Arg -> D -> (Result + ErrVal) * D)
    (call : list Arg -> SqlCall) (Descr : string) (i : Z) (st : HState)
    : @Outcome PanicVal unit * HState
    by wf (Z.to_nat (nRows (hglobals st) - i)) lt :=
  insertLoop exec call Descr i st with inspect (i <? nRows (hglobals st)) := {
    | exist _ false Hdone => (Returned tt, st)
    | exist _ true Hlt with inspect (insertStep exec call Descr i st) := {
      | exist _ (Returned _, st') Hstep => insertLoop exec call Descr (i + 1) st'
      | exist _ (Panicked p, st') Hpanic => (Panicked p, st') } }.
Proof.
  pose proof (insertStep_nRows exec call Descr i st) as Hn.
  rewrite Hstep in Hn. cbn [snd] in Hn. rewrite Hn.
  apply Z.ltb_lt in Hlt. lia.
Qed.

(** *** The four insert functions *)

Definition dbDoInsert (db : Conn) : H unit :=
  insertLoop (Conn_Exec db insertDML) (SqlExec insertDML) "DB-imm" 0.

Definition txDoInsert (tx : Conn) : H unit :=
  insertLoop (Conn_Exec tx insertDML) (SqlExec insertDML) "Tx-imm" 0.

Definition dbDoInsertPrepared (db : Conn) : H unit :=
  r <- sqlCall (SqlPrepare insertDML) (Conn_Prepare db insertDML) ;;
  match r with
  | inr err => logPanicErr err
  | inl stmt =>
    hdefer (sqlCall StmtClose (Stmt_Close stmt))
           (insertLoop (Stmt_Exec stmt) StmtExec "DB-Prepare" 0)
  end.

Definition txDoInsertPrepared (tx : Conn) : H unit :=
  r <- sqlCall (SqlPrepare insertDML) (Conn_Prepare tx insertDML) ;;
  match r with
  | inr err => logPanicErr err
  | inl stmt =>
    hdefer (sqlCall StmtClose (Stmt_Close stmt))
           (insertLoop (Stmt_Exec stmt) StmtExec "Tx-Prepare" 0)
  end.

(** *** [rowsDoFetch] and the four select functions *)

(** [for rows.Next() { }]: [Next] is called until it returns false. *)
Definition rowsNextLoop (rows : Rows) : H unit :=
  fun st =>
    (Returned tt,
     mkHState (hglobals st) (hstore st)
              (htrace st ++ repeat RowsNext (S (Rows_count rows)))%list).

Definition rowsDoFetch (rows : Rows) : H unit :=
  rowsNextLoop rows ;;;
  err <- (fun st => (Returned (Rows_Err rows), note RowsErr st)) ;;
  match err with
  | Some e => logPanicErr e
  | None => hret tt
  end.

Definition dbDoSelect (db : Conn) : H unit :=
  fun st =>
    let args := [ArgString (noteTextPattern (hglobals st))] in
    (r <- sqlCall (SqlQuery selectDML args) (Conn_Query db selectDML args) ;;
     match r with
     | inr err => logPanicErr err
     | inl rows => hdefer (sqlCall RowsClose (Rows_Close rows)) (rowsDoFetch rows)
     end) st.

Definition txDoSelect (tx : Conn) : H unit :=
  fun st =>
    let args := [ArgString (noteTextPattern (hglobals st))] in
    (r <- sqlCall (SqlQuery selectDML args) (Conn_Query tx selectDML args) ;;
     match r with
     | inr err => logPanicErr err
     | inl rows => hdefer (sqlCall RowsClose (Rows_Close rows)) (rowsDoFetch rows)
     end) st.

Definition dbDoSelectPrepared (db : Conn) : H unit :=
  r <- sqlCall (SqlPrepare selectDML) (Conn_Prepare db selectDML) ;;
  match r with
  | inr err => logPanicErr err
  | inl stmt =>
    hdefer (sqlCall StmtClose (Stmt_Close stmt))
      (fun st =>
         let args := [ArgString (noteTextPattern (hglobals st))] in
         (r <- sqlCall (StmtQuery args) (Stmt_Query stmt args) ;;
          match r with
          | inr err => logPanicErr err
          | inl rows =>
            hdefer (sqlCall RowsClose (Rows_Close rows)) (rowsDoFetch rows)
          end) st)
  end.

Definition txDoSelectPrepared (tx : Conn) : H unit :=
  r <- sqlCall (SqlPrepare selectDML) (Conn_Prepare tx selectDML) ;;
  match r with
  | inr err => logPanicErr err
  | inl stmt =>
    hdefer (sqlCall StmtClose (Stmt_Close stmt))
      (fun st =>
         let args := [ArgString (noteTextPattern (hglobals st))] in
         (r <- sqlCall (StmtQuery args) (Stmt_Query stmt args) ;;
          match r with
          | inr err => logPanicErr err
          | inl rows =>
            hdefer (sqlCall RowsClose (Rows_Close rows)) (rowsDoFetch rows)
          end) st)
  end.

(** *** The functions as [dbMain] sees them *)

(** A function above as a unit of work: what it does to the package-level
    variables and to the database, without the list of its calls. *)
Definition asWork {A : Type} (h : H A) : @Work PanicVal D A :=
  fun g d =>
    let '(o, st) := h (mkHState g d []) in
    (o, hglobals st, hstore st).

End Helpers.

(** *** The program with these functions in place *)

Section Whole.
Context {ErrVal PanicVal D : Type}.

(** What the whole program takes from outside: the verbs of [fmt], the bits
    of the driver, [sql.Open], and the statement methods of the handles that
    [database/sql] hands out. *)
Record Platform : Type := mkPlatform {
  pf_fmt : Fmt;
  pf_traceBits : sqlite3tracemask.TraceBits;
  pf_fmt_v : ErrVal -> string;
  pf_fmt_sharp_plus_v : ErrVal -> string;
  pf_panicString : string -> PanicVal;
  pf_sqlOpen : string -> string -> D -> (@DB ErrVal D + ErrVal) * D;
  dbConn : @DB ErrVal D -> @Conn ErrVal D;
  txConn : @Tx ErrVal D -> @Conn ErrVal D
}.

Definition logEnvOf (pf : Platform) : @LogEnv ErrVal PanicVal :=
  mkLogEnv (fmt_d (pf_fmt pf)) (pf_fmt_v pf) (pf_panicString pf).

(** What [dbMain] and [main] are run with: each function that runs
    statements is the one above, on the statement methods of the handle it
    is given. *)
Definition externalsOf (pf : Platform) : @Externals ErrVal PanicVal D :=
  mkExternals (pf_fmt pf) (pf_traceBits pf)
    (pf_fmt_v pf) (pf_fmt_sharp_plus_v pf) (pf_panicString pf) (pf_sqlOpen pf)
    (fun db => asWork (dbSetup (logEnvOf pf) (dbConn pf db)))
    (fun db => asWork (dbDoInsert (logEnvOf pf) (dbConn pf db)))
    (fun tx => asWork (txDoInsert (logEnvOf pf) (txConn pf tx)))
    (fun db => asWork (dbDoInsertPrepared (logEnvOf pf) (dbConn pf db)))
    (fun tx => asWork (txDoInsertPrepared (logEnvOf pf) (txConn pf tx)))
    (fun db => asWork (dbDoSelect (logEnvOf pf) (dbConn pf db)))
    (fun tx => asWork (txDoSelect (logEnvOf pf) (txConn pf tx)))
    (fun db => asWork (dbDoSelectPrepared (logEnvOf pf) (dbConn pf db)))
    (fun tx => asWork (txDoSelectPrepared (logEnvOf pf) (txConn pf tx))).

End Whole.

End Statements.

(** ** Test doubles

    A transaction handle that counts the calls of its methods, a database
    that hands it out, units of work that return or panic, and plain
    stand-ins for what the program takes from outside.  They serve to run
    the program on concrete inputs. *)

Module Fake.
Import GoString sqlite3tracemask trysqlite3trace1.

Record Counters : Type := mkCounters {
  commits : nat;
  rollbacks : nat
}.

Definition ErrVal : Type := string.
Definition PanicVal : Type := string.

(** A handle whose [Commit] and [Rollback] count themselves and return
    the given errors. *)
Definition countingTx (commitErr rollbackErr : option ErrVal) : @Tx ErrVal Counters :=
  mkTx (fun d => (commitErr, mkCounters (S (commits d)) (rollbacks d)))
       (fun d => (rollbackErr, mkCounters (commits d) (S (rollbacks d)))).

Definition tx0 : @Tx ErrVal Counters := countingTx None None.

Definition txCommitFails : @Tx ErrVal Counters :=
  countingTx (Some "disk full") None.

Definition txRollbackFails : @Tx ErrVal Counters :=
  countingTx None (Some "no transaction").

(** A database whose [Begin] hands out [tx]. *)
Definition dbWith (tx : @Tx ErrVal Counters) : @DB ErrVal Counters :=
  mkDB (fun d => (inl tx, d)) (fun d => (None, d)) (fun d => (None, d)).

(** A database whose [Begin] fails with [e]. *)
Definition dbBeginFails (e : ErrVal) : @DB ErrVal Counters :=
  mkDB (fun d => (inr e, d)) (fun d => (None, d)) (fun d => (None, d)).

Definition workReturns : @Work PanicVal Counters unit :=
  fun g d => (Returned tt, g, d).

Definition workPanics (p : PanicVal) : @Work PanicVal Counters unit :=
  fun g d => (Panicked p, g, d).

Definition quote : string := String (ascii_of_nat 34) EmptyString.

(** [%x] and [%d] as [fmt] prints integers; [%q] and [%#v] in a plain
    form, without the escapes of Go syntax. *)
Definition plainFmt : Fmt :=
  mkFmt (fun z => HexadecimalString.NilZero.string_of_int (Z.to_hex_int z))
        (fun z => DecimalString.NilZero.string_of_int (Z.to_int z))
        (fun s => quote ++ s ++ quote)
        (fun e => "sqlite3.Error{" ++ errText e ++ "}").

Definition plainExternals : @Externals ErrVal PanicVal Counters :=
  mkExternals plainFmt sqliteTraceBits
    (fun e => e) (fun e => e) (fun text => text)
    (fun _ _ d => (inl (dbWith tx0), d))
    (fun _ => workReturns) (fun _ => workReturns) (fun _ => workReturns)
    (fun _ => workReturns) (fun _ => workReturns) (fun _ => workReturns)
    (fun _ => workReturns) (fun _ => workReturns) (fun _ => workReturns).

Definition initialGlobals : Globals := mkGlobals 4 0 EmptyString false.

Definition initialState : @State Counters :=
  mkState initialGlobals (mkCounters 0 0) [].

(** The same with the switch on, as after [--rollback]. *)
Definition rollbackState : @State Counters :=
  mkState (mkGlobals 4 0 EmptyString true) (mkCounters 0 0) [].

(** The command line with every flag at its default. *)
Definition noFlags : CmdLine :=
  mkCmdLine EmptyString EmptyString 4 false zeroConfig EmptyString.

Definition sampleInfo (stmt expanded : string) (code ext : Z) : TraceInfo :=
  mkTraceInfo 1 0x10 0x20 stmt expanded 1500 (mkError code ext "boom").

End Fake.

(** ** Test doubles for the statements

    A database that is a list of rows with a snapshot taken at [Begin],
    handles that run every statement, and a platform made of them. *)

Module FakeSql.
Import GoString sqlite3tracemask trysqlite3trace1 WrapErr Statements.

Definition ErrVal : Type := string.
Definition PanicVal : Type := string.

Record Store : Type := mkStore {
  table : list (Z * string);
  snapshot : list (Z * string)
}.

Definition emptyStore : Store := mkStore [] [].

(** An insert adds the row of its two arguments; any other statement leaves
    the table as it is. *)
Definition insertRow (args : list Arg) (d : Store) : Store :=
  match args with
  | [ArgInt z; ArgString s] => mkStore (table d ++ [(z, s)]) (snapshot d)
  | _ => d
  end.

Definition fakeExec (args : list Arg) (d : Store)
    : (@Result ErrVal + ErrVal) * Store :=
  (inl (mkResult (inl (Z.of_nat (S (List.length (table d))))) (inl 1)),
   insertRow args d).

Definition fakeRows (d : Store) : @Rows ErrVal Store :=
  mkRows (List.length (table d)) None (fun d' => (None, d')).

Definition fakeStmt : @SqlStmt ErrVal Store :=
  mkSqlStmt fakeExec (fun _ d => (inl (fakeRows d), d)) (fun d => (None, d)).

Definition fakeConn : @Conn ErrVal Store :=
  mkConn (fun _ => fakeExec)
         (fun _ d => (inl fakeStmt, d))
         (fun _ _ d => (inl (fakeRows d), d)).

(** A connection on which every statement fails. *)
Definition brokenConn : @Conn ErrVal Store :=
  mkConn (fun _ _ d => (inr "disk I/O error", d))
         (fun _ d => (inr "disk I/O error", d))
         (fun _ _ d => (inr "disk I/O error", d)).

(** [Commit] keeps the table, [Rollback] puts the snapshot back. *)
Definition fakeTx : @Tx ErrVal Store :=
  mkTx (fun d => (None, d))
       (fun d => (None, mkStore (snapshot d) (snapshot d))).

(** [Begin] takes the snapshot. *)
Definition fakeDB : @DB ErrVal Store :=
  mkDB (fun d => (inl fakeTx, mkStore (table d) (table d)))
       (fun d => (None, d))
       (fun d => (None, d)).

(** A database that does not answer [Ping]. *)
Definition deafDB : @DB ErrVal Store :=
  mkDB (fun d => (inl fakeTx, d))
       (fun d => (Some "unable to open database file", d))
       (fun d => (None, d)).

Definition fakePlatform : @Platform ErrVal PanicVal Store :=
  mkPlatform Fake.plainFmt sqliteTraceBits
    (fun e => e) (fun e => e) (fun text => text)
    (fun _ _ d => (inl fakeDB, d))
    (fun _ => fakeConn) (fun _ => fakeConn).

Definition fakeLogEnv : @LogEnv ErrVal PanicVal := logEnvOf fakePlatform.

(** Externals whose [sql.Open] fails, and whose database does not answer. *)
Definition noDriverExternals : @Externals ErrVal PanicVal Store :=
  mkExternals Fake.plainFmt sqliteTraceBits
    (fun e => e) (fun e => e) (fun text => text)
    (fun _ _ d => (inr "sql: unknown driver", d))
    (fun _ g d => (Returned tt, g, d)) (fun _ g d => (Returned tt, g, d))
    (fun _ g d => (Returned tt, g, d)) (fun _ g d => (Returned tt, g, d))
    (fun _ g d => (Returned tt, g, d)) (fun _ g d => (Returned tt, g, d))
    (fun _ g d => (Returned tt, g, d)) (fun _ g d => (Returned tt, g, d))
    (fun _ g d => (Returned tt, g, d)).

Definition deafExternals : @Externals ErrVal PanicVal Store :=
  mkExternals Fake.plainFmt sqliteTraceBits
    (fun e => e) (fun e => e) (fun text => text)
    (fun _ _ d => (inl deafDB, d))
    (fun _ g d => (Returned tt, g, d)) (fun _ g d => (Returned tt, g, d))
    (fun _ g d => (Returned tt, g, d)) (fun _ g d => (Returned tt, g, d))
    (fun _ g d => (Returned tt, g, d)) (fun _ g d => (Returned tt, g, d))
    (fun _ g d => (Returned tt, g, d)) (fun _ g d => (Returned tt, g, d))
    (fun _ g d => (Returned tt, g, d)).

(** [recover()] on a panic whose value is a string. *)
Definition stringRecover : @Recover ErrVal PanicVal :=
  mkRecover (fun _ => None) (fun p => p).

Definition globals3 : Globals := mkGlobals 3 10 "bla%" false.

Definition state3 : @State Store := mkState globals3 emptyStore [].

Definition hstate3 : @HState Store := mkHState globals3 emptyStore [].

Definition hstateNoRows : @HState Store :=
  mkHState (mkGlobals 0 10 "bla%" false) emptyStore [].

(** The command line [--db=x.db --nrows=3 --rollback]. *)
Definition rollbackFlags : CmdLine :=
  mkCmdLine "x.db" "bla%" 3 true zeroConfig EmptyString.

End FakeSql.

(** * Properties *)

Import GoString sqlite3tracemask trysqlite3trace1.

(** ** Range loops and ASCII letters *)

(** Whether the rune [c] is among [rs]. *)
Definition hasRune (c : rune) (rs : list rune) : bool := existsb (Z.eqb c) rs.

(** Whether the byte of the ASCII letter [a] occurs in the string [s]. *)
Definition hasLetter (a : ascii) (s : string) : bool :=
  existsb (Ascii.eqb a) (list_ascii_of_string s).

(** The field-wise [||] of two configurations. *)
Definition orConfig (a b : Config) : Config :=
  mkConfig (Stmt a || Stmt b) (Profile a || Profile b)
           (Row a || Row b) (Close a || Close b).

(** The letters of [DecodeStringArg]. *)
Definition recognized (a : ascii) : bool :=
  Ascii.eqb a "s" || Ascii.eqb a "p" || Ascii.eqb a "r" || Ascii.eqb a "c".

(** [s] without the bytes that are not recognized letters. *)
Definition keepRecognized (s : string) : string :=
  string_of_list_ascii (filter recognized (list_ascii_of_string s)).

(** The configuration that the letters of [s] stand for. *)
Definition lettersConfig (s : string) : Config :=
  mkConfig (hasLetter "s" s) (hasLetter "p" s) (hasLetter "r" s) (hasLetter "c" s).

(** The calls of [Commit], of [Rollback], in a list of calls. *)
Definition isCommit (c : Call) : bool :=
  match c with CallCommit => true | _ => false end.

Definition isRollback (c : Call) : bool :=
  match c with CallRollback => true | _ => false end.

Definition commitAttempts (l : list Call) : nat := List.length (filter isCommit l).

Definition rollbackAttempts (l : list Call) : nat := List.length (filter isRollback l).

(** [s'] has the calls of [s] and, after them, the calls made since. *)
Definition extends {D : Type} (s s' : @State D) : Prop :=
  exists l, calls s' = (calls s ++ l)%list.

(** A computation that only adds to the list of calls. *)
Definition appending {PanicVal D A : Type} (m : @M PanicVal D A) : Prop :=
  forall s, extends s (snd (m s)).

(** The bit [k] if [b] holds, no bit otherwise. *)
Definition bitIf (b : bool) (k : Z) : Z := if b then k else 0.

(** The number of flags that are set. *)
Definition flagCount (c : Config) : nat :=
  (Nat.b2n (Stmt c) + Nat.b2n (Profile c) + Nat.b2n (Row c) + Nat.b2n (Close c))%nat.

(** The calls of [Begin], of [sql.Open], of [Close], in a list of calls. *)
Definition isBegin (c : Call) : bool :=
  match c with CallBegin => true | _ => false end.

Definition beginAttempts (l : list Call) : nat := List.length (filter isBegin l).

(** The calls that end a transaction. *)
Definition endAttempts (l : list Call) : nat :=
  (commitAttempts l + rollbackAttempts l)%nat.

Definition isOpenOrClose (c : Call) : bool :=
  match c with CallOpen _ _ | CallClose => true | _ => false end.

(** A unit of work in the style of [txWrap], handed to [TxWrapErr]: it
    returns [nil] where the other returns. *)
Definition returningNil {PanicVal D ErrVal : Type} (f : @Work PanicVal D unit)
    : @Work PanicVal D (@error ErrVal) :=
  fun g d =>
    match f g d with
    | (Returned _, g', d') => (Returned None, g', d')
    | (Panicked p, g', d') => (Panicked p, g', d')
    end.

(** A computation that begins [n] transactions when it returns, and ends
    each of them; when it panics it has begun at most [n] and has ended them
    all but, at most, the last.  It neither opens nor closes the database,
    and what it returns satisfies [Q]. *)
Definition counted {PanicVal D A : Type} (n : nat) (Q : A -> Prop)
    (m : @M PanicVal D A) : Prop :=
  forall s, exists l,
    calls (snd (m s)) = (calls s ++ l)%list
    /\ filter isOpenOrClose l = []
    /\ match fst (m s) with
       | Returned a => Q a /\ beginAttempts l = n /\ endAttempts l = n
       | Panicked _ =>
         (endAttempts l <= beginAttempts l <= S (endAttempts l))%nat
         /\ (beginAttempts l <= n)%nat
       end.

(** The arguments of a call that runs a statement, if it is one. *)
Definition execArgsOf (c : Statements.SqlCall) : option (list Statements.Arg) :=
  match c with
  | Statements.SqlExec _ args => Some args
  | Statements.StmtExec args => Some args
  | _ => None
  end.

Definition isExec (c : Statements.SqlCall) : bool :=
  match execArgsOf c with Some _ => true | None => false end.

Definition isPrintf (c : Statements.SqlCall) : bool :=
  match c with Statements.LogPrintf _ => true | _ => false end.

Definition isLogPanic (c : Statements.SqlCall) : bool :=
  match c with Statements.LogPanic _ => true | _ => false end.

Definition isClosing (c : Statements.SqlCall) : bool :=
  match c with Statements.StmtClose | Statements.RowsClose => true | _ => false end.

(** How many statements a list of calls runs, and how many results it
    logs. *)
Definition execCalls (l : list Statements.SqlCall) : nat := List.length (filter isExec l).

Definition printed (l : list Statements.SqlCall) : nat := List.length (filter isPrintf l).

(** The sequence numbers bound to the statements run, in order. *)
Definition seqNumOf (c : Statements.SqlCall) : list Z :=
  match execArgsOf c with
  | Some (Statements.ArgInt z :: _) => [z]
  | _ => []
  end.

Definition seqNums (l : list Statements.SqlCall) : list Z := flat_map seqNumOf l.

(** [rowSeqNum] after [k] times [rowSeqNum++]. *)
Definition bumped (k : nat) (z : Z) : Z :=
  Nat.iter k (fun x => Statements.wrapInt (x + 1)) z.

(** The package-level variables with [rowSeqNum] set to [z]. *)
Definition withRowSeqNum (g : Globals) (z : Z) : Globals :=
  mkGlobals (nRows g) z (noteTextPattern g) (rollbackAlways g).

(** A method that runs an insert and never fails, nor do the getters of its
    result. *)
Definition alwaysInserts {ErrVal D : Type}
    (exec : list Statements.Arg -> D -> (@Statements.Result ErrVal + ErrVal) * D) : Prop :=
  forall args d,
    exists id n d',
      exec args d = (inl (Statements.mkResult (inl id) (inl n)), d').

(** What [rowsDoFetch] adds to the calls, and how it ends: [Next] is called
    until it returns false, then [Err]; an error is logged and panicked
    with. *)
Definition fetchCalls {ErrVal PanicVal D : Type} (le : @Statements.LogEnv ErrVal PanicVal)
    (rows : @Statements.Rows ErrVal D) : list Statements.SqlCall :=
  (repeat Statements.RowsNext (S (Statements.Rows_count rows))
     ++ Statements.RowsErr
     :: match Statements.Rows_Err rows with
        | Some e => [Statements.LogPanic (Statements.log_fmt_v le e)]
        | None => []
        end)%list.

Definition fetchOutcome {ErrVal PanicVal D : Type} (le : @Statements.LogEnv ErrVal PanicVal)
    (rows : @Statements.Rows ErrVal D) : @Outcome PanicVal unit :=
  match Statements.Rows_Err rows with
  | Some e => Panicked (Statements.log_panicString le (Statements.log_fmt_v le e))
  | None => Returned tt
  end.

(** A connection on which every statement of the program succeeds. *)
Definition runsStatements {ErrVal D : Type} (c : @Statements.Conn ErrVal D) : Prop :=
  alwaysInserts (Statements.Conn_Exec c Statements.insertDML)
  /\ (forall d, exists r d',
         Statements.Conn_Exec c "DROP TABLE IF EXISTS t1" [] d = (inl r, d'))
  /\ (forall d, exists r d',
         Statements.Conn_Exec c Statements.tableDDL [] d = (inl r, d'))
  /\ (forall q d, exists stmt d',
         Statements.Conn_Prepare c q d = (inl stmt, d')
         /\ alwaysInserts (Statements.Stmt_Exec stmt)
         /\ forall args d1, exists rows d2,
              Statements.Stmt_Query stmt args d1 = (inl rows, d2)
              /\ Statements.Rows_Err rows = None)
  /\ (forall q args d, exists rows d',
         Statements.Conn_Query c q args d = (inl rows, d')
         /\ Statements.Rows_Err rows = None).

(** A platform on which nothing fails: [sql.Open] hands out a database that
    answers [Ping], runs the statements and begins transactions that run the
    statements and commit. *)
Definition healthy {ErrVal PanicVal D : Type}
    (pf : @Statements.Platform ErrVal PanicVal D) : Prop :=
  forall filename d, exists db d',
    Statements.pf_sqlOpen pf "sqlite3_tracing" filename d = (inl db, d')
    /\ (forall d1, fst (DB_Ping db d1) = None)
    /\ runsStatements (Statements.dbConn pf db)
    /\ (forall d1, exists tx d2,
           DB_Begin db d1 = (inl tx, d2)
           /\ (forall d3, fst (Tx_Commit tx d3) = None)
           /\ runsStatements (Statements.txConn pf tx)).

(** A step of [dbMain] that returns, has moved [rowSeqNum] up by [k] times
    [N] and has called [Commit] [c] times and [Rollback] [r] times, from
    every state whose [nRows] amounts to [N], whose switch is [b] and in
    which [rowSeqNum] has room for [k] times [N]. *)
Definition stepOk {PanicVal D A : Type} (N : Z) (b : bool) (k c r : nat) (a : A)
    (m : @M PanicVal D A) : Prop :=
  forall s,
    Z.max 0 (nRows (globals s)) = N ->
    rollbackAlways (globals s) = b ->
    - 2 ^ 63 <= rowSeqNum (globals s) ->
    rowSeqNum (globals s) + Z.of_nat k * N < 2 ^ 63 ->
    exists d l,
      m s = (Returned a,
             mkState (withRowSeqNum (globals s) (rowSeqNum (globals s) + Z.of_nat k * N))
                     d (calls s ++ l))
      /\ commitAttempts l = c /\ rollbackAttempts l = r.

Section RangeFacts.

Ltac bool_to_prop :=
  repeat match goal with
         | H : (_ && _) = true |- _ => apply andb_true_iff in H; destruct H
         | H : (_ && _) = false |- _ => apply andb_false_iff in H
         | H : (_ <? _) = true |- _ => apply Z.ltb_lt in H
         | H : (_ <? _) = false |- _ => apply Z.ltb_ge in H
         | H : (_ <=? _) = true |- _ => apply Z.leb_le in H
         | H : (_ <=? _) = false |- _ => apply Z.leb_gt in H
         | H : negb _ = true |- _ => apply negb_true_iff in H
         end.

(** One step of the loop neither invents nor loses a byte below
    [runeSelf]: such a byte is a code point of its own, and the code points
    of longer sequences and [runeError] lie above. *)
Lemma decodeRune_ascii (c b : Z) (rest : list Z) :
  0 <= c < runeSelf ->
  (c =? fst (decodeRune (b :: rest)))
    || hasRune c (skipn (snd (decodeRune (b :: rest))) (b :: rest))
  = hasRune c (b :: rest).
Proof.
  intros Hc. unfold runeSelf in Hc.
  assert (Hne : forall x, runeSelf <= x -> (c =? x) = false).
  { intros x Hx. unfold runeSelf in Hx. apply Z.eqb_neq. lia. }
  unfold decodeRune, isCont, runeSelf, rune1Max, rune2Max, rune3Max, runeError,
    locb, hicb, t2, t3, t4, t5 in *.
  repeat match goal with
         | |- context [if ?x then _ else _] => destruct x eqn:?
         | |- context [match ?l with [] => _ | _ :: _ => _ end] => destruct l
         end;
    bool_to_prop; cbn [fst snd skipn hasRune existsb];
    repeat match goal with
           | |- context [c =? ?x] => rewrite (Hne x) by lia
           end;
    cbn [orb];
    try reflexivity.
Qed.

Lemma rangeBytes_ascii (c : Z) (bs : list Z) :
  0 <= c < runeSelf ->
  hasRune c (rangeBytes bs) = hasRune c bs.
Proof.
  intros Hc. funelim (rangeBytes bs).
  - reflexivity.
  - simp rangeBytes. cbn [hasRune existsb].
    change (existsb (Z.eqb c)) with (hasRune c).
    rewrite H by exact Hc. apply decodeRune_ascii. exact Hc.
Qed.

End RangeFacts.

(** ** The mask configuration *)

Section MaskFacts.

Lemma byteVal_eqb (a b : ascii) : (byteVal a =? byteVal b) = Ascii.eqb a b.
Proof.
  destruct (Ascii.eqb_spec a b) as [->|Hne].
  - apply Z.eqb_refl.
  - apply Z.eqb_neq. unfold byteVal. intros H. apply Hne.
    apply N2Z.inj in H.
    rewrite <- (ascii_N_embedding a), <- (ascii_N_embedding b), H.
    reflexivity.
Qed.

Lemma hasRune_bytes (a : ascii) (s : string) :
  hasRune (byteVal a) (bytes s) = hasLetter a s.
Proof.
  unfold hasRune, hasLetter, bytes.
  induction (list_ascii_of_string s) as [|x l IH]; [reflexivity|].
  cbn [map existsb]. rewrite IH, byteVal_eqb. reflexivity.
Qed.

(** A range loop meets the rune of an ASCII letter exactly when the byte
    of the letter is in the string. *)
Lemma range_hasLetter (a : ascii) (s : string) :
  byteVal a < runeSelf ->
  hasRune (runeLit a) (range s) = hasLetter a s.
Proof.
  intros Ha. unfold range, runeLit.
  rewrite rangeBytes_ascii, hasRune_bytes; [reflexivity|].
  split; [|exact Ha]. unfold byteVal. lia.
Qed.

Lemma orConfig_zero_r (c : Config) : orConfig c zeroConfig = c.
Proof.
  destruct c; unfold orConfig; cbn. rewrite !orb_false_r. reflexivity.
Qed.

Lemma orConfig_zero_l (c : Config) : orConfig zeroConfig c = c.
Proof. destruct c; reflexivity. Qed.

(** The loop of [DecodeStringArg] over the runes [rs]: each flag ends up
    set if it was set before or its letter is among [rs]. *)
Lemma fold_decodeRuneCase (rs : list rune) (dest : Config) :
  fold_left decodeRuneCase rs dest
  = orConfig dest (mkConfig (hasRune (runeLit "s") rs) (hasRune (runeLit "p") rs)
                            (hasRune (runeLit "r") rs) (hasRune (runeLit "c") rs)).
Proof.
  revert dest. induction rs as [|c rs IH]; intros dest.
  - symmetry. apply orConfig_zero_r.
  - cbn [fold_left]. rewrite IH. unfold decodeRuneCase, hasRune, orConfig.
    cbn [existsb Stmt Profile Row Close].
    rewrite !(Z.eqb_sym _ c).
    change (runeLit "s") with 115. change (runeLit "p") with 112.
    change (runeLit "r") with 114. change (runeLit "c") with 99.
    destruct (Z.eqb_spec c 115) as [->|_]; cbn;
      [rewrite ?orb_true_r; reflexivity|].
    destruct (Z.eqb_spec c 112) as [->|_]; cbn;
      [rewrite ?orb_true_r; reflexivity|].
    destruct (Z.eqb_spec c 114) as [->|_]; cbn;
      [rewrite ?orb_true_r; reflexivity|].
    destruct (Z.eqb_spec c 99) as [->|_]; cbn;
      [rewrite ?orb_true_r; reflexivity|].
    reflexivity.
Qed.

Lemma DecodeStringArg_orConfig (dest : Config) (s : string) :
  DecodeStringArg dest s = orConfig dest (lettersConfig s).
Proof.
  unfold DecodeStringArg, lettersConfig. rewrite fold_decodeRuneCase.
  rewrite !range_hasLetter by (vm_compute; reflexivity).
  reflexivity.
Qed.

Lemma hasLetter_keepRecognized (a : ascii) (s : string) :
  recognized a = true ->
  hasLetter a (keepRecognized s) = hasLetter a s.
Proof.
  intros Ha. unfold hasLetter, keepRecognized.
  rewrite list_ascii_of_string_of_list_ascii.
  induction (list_ascii_of_string s) as [|x l IH]; [reflexivity|].
  cbn [filter existsb]. destruct (recognized x) eqn:Hx.
  - cbn [existsb]. rewrite IH. reflexivity.
  - rewrite IH. destruct (Ascii.eqb_spec a x) as [->|_]; [congruence|reflexivity].
Qed.

Variable tb : TraceBits.

Lemma EventMask_bits (c : Config) :
  EventMask tb c
  = Z.lor (Z.lor (Z.lor (bitIf (Stmt c) (TraceStmt tb))
                        (bitIf (Profile c) (TraceProfile tb)))
                 (bitIf (Row c) (TraceRow tb)))
          (bitIf (Close c) (TraceClose tb)).
Proof.
  unfold EventMask, bitIf.
  destruct (Stmt c), (Profile c), (Row c), (Close c);
    rewrite ?Z.lor_0_l, ?Z.lor_0_r; reflexivity.
Qed.

Lemma bitIf_orb (a b : bool) (k : Z) :
  bitIf (a || b) k = Z.lor (bitIf a k) (bitIf b k).
Proof.
  destruct a, b; cbn; rewrite ?Z.lor_diag, ?Z.lor_0_l, ?Z.lor_0_r; reflexivity.
Qed.

(** The mask of a field-wise [||] is the bitwise or of the masks. *)
Lemma EventMask_orConfig (a b : Config) :
  EventMask tb (orConfig a b) = Z.lor (EventMask tb a) (EventMask tb b).
Proof.
  rewrite !EventMask_bits. unfold orConfig. cbn [Stmt Profile Row Close].
  rewrite !bitIf_orb.
  apply Z.bits_inj'. intros n _. rewrite !Z.lor_spec.
  repeat match goal with
         | |- context [Z.testbit ?x n] =>
           let t := fresh "t" in
           generalize (Z.testbit x n); intros t
         end.
  repeat match goal with t : bool |- _ => destruct t end; reflexivity.
Qed.

End MaskFacts.

(** ** The transaction wrapper *)

Section WrapperFacts.
Context {ErrVal PanicVal D : Type}.

Implicit Types (db : @DB ErrVal D) (tx : @Tx ErrVal D) (s : @State D).
Implicit Types (txFunc : @Tx ErrVal D -> @Work PanicVal D unit).

(** Run the wrapper as far as the equations at hand allow. *)
Ltac wrap_steps :=
  cbv beta iota zeta delta [txWrap txWrapDeferred callWork callMethod];
  cbn [store globals calls fst snd].

(** [Begin] fails: the wrapper returns that error and calls nothing else. *)
Lemma txWrap_begin_fails db txFunc s0 txErr d1 :
  DB_Begin db (store s0) = (inr txErr, d1) ->
  txWrap db txFunc s0
  = (Returned (Some txErr), mkState (globals s0) d1 (calls s0 ++ [CallBegin])).
Proof.
  intros Hb. wrap_steps. rewrite Hb. reflexivity.
Qed.

(** The unit of work panics. *)
Lemma txWrap_panicked db txFunc s0 tx d1 p g2 d2 :
  DB_Begin db (store s0) = (inl tx, d1) ->
  txFunc tx (globals s0) d1 = (Panicked p, g2, d2) ->
  txWrap db txFunc s0
  = (Panicked p,
     mkState g2 (snd (Tx_Rollback tx d2))
             (calls s0 ++ [CallBegin; CallTxFunc; CallRollback])).
Proof.
  intros Hb Hw. wrap_steps. rewrite Hb. wrap_steps. rewrite Hw. wrap_steps.
  destruct (Tx_Rollback tx d2) as [e d3]. wrap_steps.
  rewrite <- !app_assoc. reflexivity.
Qed.

(** The unit of work returns and the switch is on. *)
Lemma txWrap_forced_rollback db txFunc s0 tx d1 u g2 d2 :
  DB_Begin db (store s0) = (inl tx, d1) ->
  txFunc tx (globals s0) d1 = (Returned u, g2, d2) ->
  rollbackAlways g2 = true ->
  txWrap db txFunc s0
  = (Returned None,
     mkState g2 (snd (Tx_Rollback tx d2))
             (calls s0 ++ [CallBegin; CallTxFunc; CallRollback])).
Proof.
  intros Hb Hw Hr. wrap_steps. rewrite Hb. wrap_steps. rewrite Hw. wrap_steps.
  rewrite Hr. destruct (Tx_Rollback tx d2) as [e d3]. wrap_steps.
  rewrite <- !app_assoc. reflexivity.
Qed.

(** The unit of work returns and the switch is off. *)
Lemma txWrap_commit db txFunc s0 tx d1 u g2 d2 :
  DB_Begin db (store s0) = (inl tx, d1) ->
  txFunc tx (globals s0) d1 = (Returned u, g2, d2) ->
  rollbackAlways g2 = false ->
  txWrap db txFunc s0
  = (Returned (fst (Tx_Commit tx d2)),
     mkState g2 (snd (Tx_Commit tx d2))
             (calls s0 ++ [CallBegin; CallTxFunc; CallCommit])).
Proof.
  intros Hb Hw Hr. wrap_steps. rewrite Hb. wrap_steps. rewrite Hw. wrap_steps.
  rewrite Hr. destruct (Tx_Commit tx d2) as [e d3]. wrap_steps.
  rewrite <- !app_assoc. reflexivity.
Qed.

(** Once [Begin] has handed out a transaction, the wrapper calls the unit
    of work and then one of the two methods. *)
Lemma txWrap_calls db txFunc s0 tx d1 :
  DB_Begin db (store s0) = (inl tx, d1) ->
  exists c, (c = CallCommit \/ c = CallRollback)
            /\ calls (snd (txWrap db txFunc s0))
               = (calls s0 ++ [CallBegin; CallTxFunc; c])%list.
Proof.
  intros Hb.
  destruct (txFunc tx (globals s0) d1) as [[[u|p] g2] d2] eqn:Hw.
  - destruct (rollbackAlways g2) eqn:Hr.
    + exists CallRollback. split; [now right|].
      rewrite (txWrap_forced_rollback _ _ _ _ _ _ _ _ Hb Hw Hr). reflexivity.
    + exists CallCommit. split; [now left|].
      rewrite (txWrap_commit _ _ _ _ _ _ _ _ Hb Hw Hr). reflexivity.
  - exists CallRollback. split; [now right|].
    rewrite (txWrap_panicked _ _ _ _ _ _ _ _ Hb Hw). reflexivity.
Qed.

End WrapperFacts.

(** ** [dbMain] and [main] *)

Section MainFacts.
Context {ErrVal PanicVal D : Type}.
Variable ext : @Externals ErrVal PanicVal D.

Implicit Types (db : @DB ErrVal D) (tx : @Tx ErrVal D) (s : @State D).

Lemma extends_refl s : extends s s.
Proof. exists []. symmetry. apply app_nil_r. Qed.

Lemma extends_trans s1 s2 s3 : extends s1 s2 -> extends s2 s3 -> extends s1 s3.
Proof.
  intros [l1 H1] [l2 H2]. exists (l1 ++ l2)%list.
  rewrite H2, H1, app_assoc. reflexivity.
Qed.

Lemma logCall_extends c s : extends s (logCall c s).
Proof. exists [c]. reflexivity. Qed.

Lemma callMethod_extends {A : Type} c (f : D -> A * D) s :
  extends s (snd (callMethod c f s)).
Proof.
  unfold callMethod. destruct (f (store s)) as [a d]. exists [c]. reflexivity.
Qed.

Lemma callWork_appending {A : Type} c (f : @Work PanicVal D A) :
  appending (callWork c f).
Proof.
  intros s. unfold callWork.
  destruct (f (globals s) (store s)) as [[o g] d]. exists [c]. reflexivity.
Qed.

Lemma ret_appending {A : Type} (a : A) : appending (@ret PanicVal D A a).
Proof. intros s. apply extends_refl. Qed.

Lemma bind_appending {A B : Type} (m : @M PanicVal D A) (k : A -> @M PanicVal D B) :
  appending m -> (forall a, appending (k a)) -> appending (bind m k).
Proof.
  intros Hm Hk s. unfold bind. specialize (Hm s).
  destruct (m s) as [[a|p] s1]; cbn [snd] in *.
  - eapply extends_trans; [exact Hm|]. apply Hk.
  - exact Hm.
Qed.

Lemma deferring_appending {A B : Type} (d : @State D -> B * @State D)
      (body : @M PanicVal D A) :
  (forall s, extends s (snd (d s))) -> appending body -> appending (deferring d body).
Proof.
  intros Hd Hb s. unfold deferring. specialize (Hb s).
  destruct (body s) as [o s1]. specialize (Hd s1).
  destruct (d s1) as [b s2]. cbn [snd] in *.
  eapply extends_trans; eassumption.
Qed.

Lemma logPanic_appending {A : Type} (text : string) :
  appending (@logPanic ErrVal PanicVal D ext A text).
Proof. intros s. apply logCall_extends. Qed.

Lemma txWrap_appending db (txFunc : @Tx ErrVal D -> @Work PanicVal D unit) :
  appending (txWrap db txFunc).
Proof.
  intros s. destruct (DB_Begin db (store s)) as [[tx|e] d1] eqn:Hb.
  - destruct (txWrap_calls db txFunc s tx d1 Hb) as [c [_ Hc]].
    eexists. exact Hc.
  - rewrite (txWrap_begin_fails db txFunc s e d1 Hb). eexists. reflexivity.
Qed.

Lemma txWrapOrPanic_appending db (f : @Tx ErrVal D -> @Work PanicVal D unit) :
  appending (txWrapOrPanic ext db f).
Proof.
  unfold txWrapOrPanic. apply bind_appending; [apply txWrap_appending|].
  intros [e|]; [apply logPanic_appending | apply ret_appending].
Qed.

Lemma dbMain_appending (filename : string) : appending (dbMain ext filename).
Proof.
  intros s. unfold dbMain.
  pose proof (callMethod_extends (CallOpen "sqlite3_tracing" filename)
                (sqlOpen ext "sqlite3_tracing" filename) s) as Ho.
  destruct (callMethod _ _ s) as [[db|e] s1]; cbn [snd] in Ho.
  - eapply extends_trans; [exact Ho|].
    apply deferring_appending; [intros s'; apply callMethod_extends|].
    apply bind_appending.
    + intros s'. pose proof (callMethod_extends CallPing (DB_Ping db) s') as Hp.
      destruct (callMethod CallPing (DB_Ping db) s') as [e s'']. exact Hp.
    + intros [e|]; [apply logPanic_appending|].
      repeat (apply bind_appending;
              [first [apply callWork_appending | apply txWrapOrPanic_appending]
              |intros _]).
      apply ret_appending.
  - cbn [snd]. eapply extends_trans; [exact Ho|]. apply logCall_extends.
Qed.

(** What [main] does before it looks at the filename: three lines on
    standard output, then the driver is registered with the mask of the
    decoded configuration. *)
Lemma main_startup_calls (args : CmdLine) s0 :
  exists rest,
    calls (snd (main ext args s0))
    = (calls s0
        ++ [CallPrint ("Short form of mask: {"
                         ++ GenerateStringArg
                              (DecodeStringArg (arg_trace args) (arg_trace_mask args))
                         ++ "}" ++ nl);
            CallPrint ("Long form of mask (separate flags): {"
                         ++ GenerateBoolArgs
                              (DecodeStringArg (arg_trace args) (arg_trace_mask args))
                         ++ "}" ++ nl);
            CallPrint ("Numeric mask: 0x"
                         ++ fmt_x (fmt ext)
                              (EventMask (traceBits ext)
                                 (DecodeStringArg (arg_trace args) (arg_trace_mask args)))
                         ++ nl);
            CallRegister "sqlite3_tracing"
                         (EventMask (traceBits ext)
                            (DecodeStringArg (arg_trace args) (arg_trace_mask args)))
                         true]
        ++ rest)%list.
Proof.
  unfold main. destruct (String.eqb (arg_db args) EmptyString).
  - eexists. cbn [snd logCall calls globals store].
    rewrite <- !app_assoc. cbn [app]. reflexivity.
  - match goal with
    | |- context [dbMain ext ?f ?s] =>
      pose proof (dbMain_appending f s) as [l Hl];
        destruct (dbMain ext f s) as [[code|p] s6]
    end; cbn [snd] in *; exists l; rewrite Hl;
      cbn [logCall calls globals store];
      rewrite <- !app_assoc; cbn [app]; reflexivity.
Qed.

End MainFacts.

(** ** The properties of the specification *)

Section MaskClaims.
Variable tb : TraceBits.

(** Decoding the short string of a configuration gives the configuration
    back. *)
Lemma DecodeStringArg_GenerateStringArg (c : Config) :
  DecodeStringArg zeroConfig (GenerateStringArg c) = c.
Proof.
  rewrite DecodeStringArg_orConfig, orConfig_zero_l.
  destruct c as [[] [] [] []]; reflexivity.
Qed.

(** C5.  For each of the sixteen configurations, the mask of the
    configuration decoded from its short string is the mask of the
    configuration itself:
    [EventMask(DecodeStringArg(GenerateStringArg(config))) = EventMask(config)]. *)
Theorem EventMask_short_string_round_trip (c : Config) :
  EventMask tb (DecodeStringArg zeroConfig (GenerateStringArg c)) = EventMask tb c.
Proof.
  rewrite DecodeStringArg_GenerateStringArg. reflexivity.
Qed.

(** C6.  [DecodeStringArg] gives a result on every string.  From the
    all-false configuration, each flag is set exactly when its letter occurs
    in the string; the bytes that are none of [s], [p], [r], [c] can be
    dropped from the string without changing the result; and the mask is
    the or of the bits of the letters that occur. *)
Theorem DecodeStringArg_recognized_letters_only (dest : Config) (s : string) :
  DecodeStringArg zeroConfig s
  = mkConfig (hasLetter "s" s) (hasLetter "p" s) (hasLetter "r" s) (hasLetter "c" s)
  /\ DecodeStringArg dest (keepRecognized s) = DecodeStringArg dest s
  /\ EventMask tb (DecodeStringArg zeroConfig s)
     = Z.lor (Z.lor (Z.lor (bitIf (hasLetter "s" s) (TraceStmt tb))
                           (bitIf (hasLetter "p" s) (TraceProfile tb)))
                    (bitIf (hasLetter "r" s) (TraceRow tb)))
             (bitIf (hasLetter "c" s) (TraceClose tb)).
Proof.
  assert (Hz : DecodeStringArg zeroConfig s = lettersConfig s).
  { rewrite DecodeStringArg_orConfig. apply orConfig_zero_l. }
  split; [exact Hz|]. split.
  - rewrite !DecodeStringArg_orConfig. unfold lettersConfig.
    rewrite !hasLetter_keepRecognized by reflexivity. reflexivity.
  - rewrite Hz, EventMask_bits. reflexivity.
Qed.

End MaskClaims.

Section MainClaims.
Context {ErrVal PanicVal D : Type}.
Variable ext : @Externals ErrVal PanicVal D.

(** C7.  With the trace flags given in both forms, the mask that [main]
    prints and registers the driver with, as its fourth call, is the bitwise
    or of the mask of the four boolean flags and the mask of the string flag
    decoded alone; decoding into a configuration that has flags set keeps
    them and adds those of the string. *)
Theorem main_mask_is_union (args : CmdLine) (s0 : @State D) :
  (exists short long after,
      calls (snd (main ext args s0))
      = (calls s0
           ++ [CallPrint short;
               CallPrint long;
               CallPrint ("Numeric mask: 0x"
                            ++ fmt_x (fmt ext)
                                 (Z.lor (EventMask (traceBits ext) (arg_trace args))
                                        (EventMask (traceBits ext)
                                           (DecodeStringArg zeroConfig
                                              (arg_trace_mask args))))
                            ++ nl);
               CallRegister "sqlite3_tracing"
                 (Z.lor (EventMask (traceBits ext) (arg_trace args))
                        (EventMask (traceBits ext)
                           (DecodeStringArg zeroConfig (arg_trace_mask args))))
                 true]
           ++ after)%list)
  /\ DecodeStringArg (arg_trace args) (arg_trace_mask args)
     = orConfig (arg_trace args) (DecodeStringArg zeroConfig (arg_trace_mask args)).
Proof.
  assert (Hor : DecodeStringArg (arg_trace args) (arg_trace_mask args)
                = orConfig (arg_trace args)
                           (DecodeStringArg zeroConfig (arg_trace_mask args))).
  { rewrite (DecodeStringArg_orConfig zeroConfig), orConfig_zero_l.
    apply DecodeStringArg_orConfig. }
  split; [|exact Hor].
  destruct (main_startup_calls ext args s0) as [rest Hc].
  rewrite <- EventMask_orConfig, <- Hor.
  eexists _, _, rest. exact Hc.
Qed.

(** C9.  With the filename flag empty, [main] ends the process with exit
    code 3; it has not called [sql.Open] and the database is as it was. *)
Theorem main_exits_3_without_filename (args : CmdLine) (s0 : @State D) :
  arg_db args = EmptyString ->
  fst (main ext args s0) = ExitCode 3
  /\ store (snd (main ext args s0)) = store s0
  /\ exists l, calls (snd (main ext args s0)) = (calls s0 ++ l)%list
               /\ forall driverName filename, ~ In (CallOpen driverName filename) l.
Proof.
  intros Hdb. unfold main. rewrite Hdb. cbn [String.eqb fst snd].
  split; [reflexivity|]. split; [reflexivity|].
  eexists. split.
  - cbn [logCall calls globals store]. rewrite <- !app_assoc. cbn [app].
    reflexivity.
  - intros driverName filename Hin. cbn [In] in Hin.
    repeat (destruct Hin as [Hin|Hin]; [discriminate Hin|]). exact Hin.
Qed.

End MainClaims.

Section CallbackClaims.
Variable fmt : Fmt.

(** C8 (as the code has it).  The line that [traceCallback] writes carries,
    after the quoted statement text: nothing when [ExpandedSQL] is empty;
    the fixed note [no change when expanded], in place of the expanded
    text, when [ExpandedSQL] is not empty and equals the statement text;
    the quoted expanded text when it is not empty and differs.  It ends
    with the database-error annotation exactly when [Code] or
    [ExtendedCode] is not zero, and with a full stop otherwise. *)
Theorem traceCallback_annotations (info : TraceInfo) :
  fst (traceCallback fmt info)
  = "Trace: ev 0x" ++ fmt_x fmt (EventCode info)
      ++ ", conn 0x" ++ fmt_x fmt (ConnHandle info)
      ++ ", stmt 0x" ++ fmt_x fmt (StmtHandle info)
      ++ " {" ++ fmt_q fmt (StmtOrTrigger info) ++ "}"
      ++ expandedText fmt info
      ++ "; " ++ fmt_d fmt (RunTimeNanosec info) ++ " ns"
      ++ dbErrText fmt info ++ nl
  /\ (ExpandedSQL info = EmptyString -> expandedText fmt info = EmptyString)
  /\ (ExpandedSQL info <> EmptyString ->
      ExpandedSQL info = StmtOrTrigger info ->
      expandedText fmt info = " no change when expanded")
  /\ (ExpandedSQL info <> EmptyString ->
      ExpandedSQL info <> StmtOrTrigger info ->
      expandedText fmt info = " expanded {" ++ fmt_q fmt (ExpandedSQL info) ++ "}")
  /\ (Code (DBError info) <> 0 \/ ExtendedCode (DBError info) <> 0 <->
      dbErrText fmt info = "; DB error: " ++ fmt_sharp_v fmt (DBError info))
  /\ (Code (DBError info) = 0 /\ ExtendedCode (DBError info) = 0 <->
      dbErrText fmt info = ".").
Proof.
  split; [reflexivity|].
  unfold expandedText, dbErrText.
  destruct (String.eqb_spec (ExpandedSQL info) EmptyString) as [He|He];
    destruct (String.eqb_spec (ExpandedSQL info) (StmtOrTrigger info)) as [Hs|Hs];
    destruct (Z.eqb_spec (Code (DBError info)) 0) as [Hc|Hc];
    destruct (Z.eqb_spec (ExtendedCode (DBError info)) 0) as [Hx|Hx];
    cbn [negb orb];
    repeat split; intros; try reflexivity; try contradiction; try discriminate;
    try tauto; try lia.
Qed.

End CallbackClaims.

Section WrapperClaims.
Context {ErrVal PanicVal D : Type}.

Implicit Types (db : @DB ErrVal D) (tx : @Tx ErrVal D) (s : @State D).
Implicit Types (txFunc : @Tx ErrVal D -> @Work PanicVal D unit).

(** C1 (as the code has it).  In every call of [txWrap] in which [Begin]
    hands out a transaction, the wrapper calls exactly one of [Commit] and
    [Rollback] on it, whether the unit of work returns or panics and
    whatever the switch says: among the calls it adds, the calls of
    [Commit] and of [Rollback] number one together, and the database is
    what that one method of the transaction makes of the database the unit
    of work left. *)
Theorem txWrap_exactly_one_attempt db txFunc s0 tx d1 :
  DB_Begin db (store s0) = (inl tx, d1) ->
  exists l,
    calls (snd (txWrap db txFunc s0)) = (calls s0 ++ l)%list
    /\ (commitAttempts l + rollbackAttempts l = 1)%nat
    /\ ((commitAttempts l = 1%nat
         /\ store (snd (txWrap db txFunc s0))
            = snd (Tx_Commit tx (snd (txFunc tx (globals s0) d1))))
        \/ (rollbackAttempts l = 1%nat
            /\ store (snd (txWrap db txFunc s0))
               = snd (Tx_Rollback tx (snd (txFunc tx (globals s0) d1))))).
Proof.
  intros Hb.
  destruct (txFunc tx (globals s0) d1) as [[[u|p] g2] d2] eqn:Hw; cbn [snd].
  - destruct (rollbackAlways g2) eqn:Hr.
    + exists [CallBegin; CallTxFunc; CallRollback].
      rewrite (txWrap_forced_rollback db txFunc s0 tx d1 u g2 d2 Hb Hw Hr).
      repeat split. right. repeat split.
    + exists [CallBegin; CallTxFunc; CallCommit].
      rewrite (txWrap_commit db txFunc s0 tx d1 u g2 d2 Hb Hw Hr).
      repeat split. left. repeat split.
  - exists [CallBegin; CallTxFunc; CallRollback].
    rewrite (txWrap_panicked db txFunc s0 tx d1 p g2 d2 Hb Hw).
    repeat split. right. repeat split.
Qed.

(** C2.  The unit of work returns and the switch is off when the deferred
    function reads it: the wrapper calls [Commit], and what [Commit]
    returns, [nil] or its error, is what the wrapper returns. *)
Theorem txWrap_commits_and_returns_commit_error
        db txFunc s0 tx d1 u g2 d2 commitErr d3 :
  DB_Begin db (store s0) = (inl tx, d1) ->
  txFunc tx (globals s0) d1 = (Returned u, g2, d2) ->
  rollbackAlways g2 = false ->
  Tx_Commit tx d2 = (commitErr, d3) ->
  txWrap db txFunc s0
  = (Returned commitErr,
     mkState g2 d3 (calls s0 ++ [CallBegin; CallTxFunc; CallCommit])).
Proof.
  intros Hb Hw Hr Hc.
  rewrite (txWrap_commit db txFunc s0 tx d1 u g2 d2 Hb Hw Hr), Hc. reflexivity.
Qed.

(** C3.  The unit of work returns and the switch is on: the wrapper calls
    [Rollback] and not [Commit], and the transaction ends rolled back
    although the unit of work reported no error. *)
Theorem txWrap_forced_rollback_instead_of_commit
        db txFunc s0 tx d1 u g2 d2 rollbackErr d3 :
  DB_Begin db (store s0) = (inl tx, d1) ->
  txFunc tx (globals s0) d1 = (Returned u, g2, d2) ->
  rollbackAlways g2 = true ->
  Tx_Rollback tx d2 = (rollbackErr, d3) ->
  exists l,
    txWrap db txFunc s0 = (Returned None, mkState g2 d3 (calls s0 ++ l))
    /\ l = [CallBegin; CallTxFunc; CallRollback]
    /\ rollbackAttempts l = 1%nat /\ commitAttempts l = 0%nat.
Proof.
  intros Hb Hw Hr Hc. exists [CallBegin; CallTxFunc; CallRollback].
  rewrite (txWrap_forced_rollback db txFunc s0 tx d1 u g2 d2 Hb Hw Hr), Hc.
  repeat split.
Qed.

(** C4.  The unit of work panics with [p]: the wrapper calls [Rollback],
    and the call of the wrapper ends in the panic with the same [p], not
    in a return of an error. *)
Theorem txWrap_rolls_back_and_repanics
        db txFunc s0 tx d1 p g2 d2 rollbackErr d3 :
  DB_Begin db (store s0) = (inl tx, d1) ->
  txFunc tx (globals s0) d1 = (Panicked p, g2, d2) ->
  Tx_Rollback tx d2 = (rollbackErr, d3) ->
  txWrap db txFunc s0
  = (Panicked p,
     mkState g2 d3 (calls s0 ++ [CallBegin; CallTxFunc; CallRollback])).
Proof.
  intros Hb Hw Hc.
  rewrite (txWrap_panicked db txFunc s0 tx d1 p g2 d2 Hb Hw), Hc. reflexivity.
Qed.

(** C10.  With the switch on and the unit of work returning, the wrapper
    returns [nil] after the rollback, whatever [Rollback] returned; after a
    panic of the unit of work, what [Rollback] returned is dropped as well;
    and [nil] is also what the wrapper returns after a [Commit] that
    succeeded. *)
Theorem txWrap_rollback_is_silent db txFunc s0 tx d1 o g2 d2 rollbackErr d3 :
  DB_Begin db (store s0) = (inl tx, d1) ->
  txFunc tx (globals s0) d1 = (o, g2, d2) ->
  Tx_Rollback tx d2 = (rollbackErr, d3) ->
  (forall u, o = Returned u -> rollbackAlways g2 = true ->
             txWrap db txFunc s0
             = (Returned None,
                mkState g2 d3 (calls s0 ++ [CallBegin; CallTxFunc; CallRollback])))
  /\ (forall p, o = Panicked p ->
                txWrap db txFunc s0
                = (Panicked p,
                   mkState g2 d3 (calls s0 ++ [CallBegin; CallTxFunc; CallRollback])))
  /\ (forall u, o = Returned u -> rollbackAlways g2 = false ->
                fst (Tx_Commit tx d2) = None ->
                fst (txWrap db txFunc s0) = Returned None).
Proof.
  intros Hb Hw Hc. repeat split.
  - intros u -> Hr.
    rewrite (txWrap_forced_rollback db txFunc s0 tx d1 u g2 d2 Hb Hw Hr), Hc.
    reflexivity.
  - intros p ->.
    rewrite (txWrap_panicked db txFunc s0 tx d1 p g2 d2 Hb Hw), Hc. reflexivity.
  - intros u -> Hr Hok.
    rewrite (txWrap_commit db txFunc s0 tx d1 u g2 d2 Hb Hw Hr). cbn [fst].
    rewrite Hok. reflexivity.
Qed.

End WrapperClaims.

(** ** Further properties of the mask configuration *)

Section MaskMore.

Lemma list_ascii_of_string_app (s1 s2 : string) :
  list_ascii_of_string (s1 ++ s2) = (list_ascii_of_string s1 ++ list_ascii_of_string s2)%list.
Proof.
  induction s1 as [|a s1 IH]; [reflexivity|]. cbn. rewrite IH. reflexivity.
Qed.

Lemma hasLetter_app (a : ascii) (s1 s2 : string) :
  hasLetter a (s1 ++ s2) = hasLetter a s1 || hasLetter a s2.
Proof.
  unfold hasLetter. rewrite list_ascii_of_string_app. apply existsb_app.
Qed.

Lemma orConfig_assoc (a b c : Config) :
  orConfig (orConfig a b) c = orConfig a (orConfig b c).
Proof.
  unfold orConfig. cbn. rewrite !orb_assoc. reflexivity.
Qed.

Lemma lettersConfig_app (s1 s2 : string) :
  lettersConfig (s1 ++ s2) = orConfig (lettersConfig s1) (lettersConfig s2).
Proof.
  unfold lettersConfig, orConfig. cbn. rewrite !hasLetter_app. reflexivity.
Qed.

Lemma lettersConfig_GenerateStringArg (c : Config) :
  lettersConfig (GenerateStringArg c) = c.
Proof. destruct c as [[] [] [] []]; reflexivity. Qed.

(** X1.  Decoding a concatenation is decoding the first string and then the
    second into the result, although the bytes at the seam may form one
    code point of their own. *)
Theorem DecodeStringArg_app (dest : Config) (s1 s2 : string) :
  DecodeStringArg dest (s1 ++ s2) = DecodeStringArg (DecodeStringArg dest s1) s2.
Proof.
  rewrite !DecodeStringArg_orConfig, lettersConfig_app, orConfig_assoc.
  reflexivity.
Qed.

(** X2.  The short string of a configuration decodes to that very
    configuration, flag by flag, and hence two configurations with the same
    short string are the same. *)
Theorem GenerateStringArg_decodes_back (c c' : Config) :
  DecodeStringArg zeroConfig (GenerateStringArg c) = c
  /\ (GenerateStringArg c = GenerateStringArg c' -> c = c').
Proof.
  assert (Hrt : forall x, DecodeStringArg zeroConfig (GenerateStringArg x) = x).
  { intros x. rewrite DecodeStringArg_orConfig, orConfig_zero_l.
    apply lettersConfig_GenerateStringArg. }
  split; [apply Hrt|].
  intros Heq. rewrite <- (Hrt c), <- (Hrt c'), Heq. reflexivity.
Qed.

(** X3.  The short string of what a string decodes to is a normal form of
    the string: decoding it, into any configuration, gives what decoding the
    string gives. *)
Theorem GenerateStringArg_normal_form (dest : Config) (s : string) :
  DecodeStringArg dest (GenerateStringArg (DecodeStringArg zeroConfig s))
  = DecodeStringArg dest s.
Proof.
  rewrite (DecodeStringArg_orConfig zeroConfig s), orConfig_zero_l.
  rewrite (DecodeStringArg_orConfig dest (GenerateStringArg _)).
  rewrite lettersConfig_GenerateStringArg.
  symmetry. apply DecodeStringArg_orConfig.
Qed.

Lemma lor_below_pow2 (w a b : Z) :
  0 <= a < 2 ^ w -> 0 <= b < 2 ^ w -> 0 <= Z.lor a b < 2 ^ w.
Proof.
  intros [Ha0 Ha] [Hb0 Hb]. split; [apply Z.lor_nonneg; split; assumption|].
  destruct (Z.eq_dec a 0) as [->|Hna]; [rewrite Z.lor_0_l; exact Hb|].
  destruct (Z.eq_dec b 0) as [->|Hnb]; [rewrite Z.lor_0_r; exact Ha|].
  assert (Hw : 0 <= w).
  { destruct (Z.le_gt_cases 0 w) as [H|H]; [exact H|].
    rewrite Z.pow_neg_r in Ha by exact H. lia. }
  assert (Hl : 0 < Z.lor a b).
  { assert (0 <= Z.lor a b) by (apply Z.lor_nonneg; split; assumption).
    assert (Z.lor a b <> 0) by (rewrite Z.lor_eq_0_iff; tauto). lia. }
  apply Z.log2_lt_pow2; [exact Hl|].
  rewrite Z.log2_lor by assumption.
  apply Z.max_lub_lt; apply Z.log2_lt_pow2; lia.
Qed.

(** X4.  When the four bits of the driver fit an unsigned integer of [w]
    bits, so does every mask: the [|=] of [EventMask] does not leave the
    range of its type. *)
Theorem EventMask_fits (tb : TraceBits) (w : Z) (c : Config) :
  0 <= TraceStmt tb < 2 ^ w ->
  0 <= TraceProfile tb < 2 ^ w ->
  0 <= TraceRow tb < 2 ^ w ->
  0 <= TraceClose tb < 2 ^ w ->
  0 <= EventMask tb c < 2 ^ w.
Proof.
  intros Hs Hp Hr Hc.
  assert (H0 : 0 <= 0 < 2 ^ w) by lia.
  unfold EventMask.
  destruct (Stmt c), (Profile c), (Row c), (Close c);
    repeat apply lor_below_pow2; assumption.
Qed.

Lemma bit_of_positive (k : Z) : 0 < k -> Z.testbit k (Z.log2 k) = true.
Proof. intros Hk. apply Z.bit_log2. exact Hk. Qed.

Lemma disjoint_bit (k k' : Z) (n : Z) :
  Z.land k k' = 0 -> Z.testbit k n = true -> Z.testbit k' n = false.
Proof.
  intros Hd Hk.
  assert (H : Z.testbit (Z.land k k') n = false) by (rewrite Hd; apply Z.bits_0).
  rewrite Z.land_spec, Hk in H. exact H.
Qed.

(** X5.  When the four bits are positive and no two of them share a bit,
    the mask tells the configuration: two configurations with the same mask
    are the same. *)
Theorem EventMask_injective (tb : TraceBits) (c c' : Config) :
  0 < TraceStmt tb -> 0 < TraceProfile tb -> 0 < TraceRow tb -> 0 < TraceClose tb ->
  Z.land (TraceStmt tb) (TraceProfile tb) = 0 ->
  Z.land (TraceStmt tb) (TraceRow tb) = 0 ->
  Z.land (TraceStmt tb) (TraceClose tb) = 0 ->
  Z.land (TraceProfile tb) (TraceRow tb) = 0 ->
  Z.land (TraceProfile tb) (TraceClose tb) = 0 ->
  Z.land (TraceRow tb) (TraceClose tb) = 0 ->
  EventMask tb c = EventMask tb c' ->
  c = c'.
Proof.
  intros Hs Hp Hr Hc Hsp Hsr Hsc Hpr Hpc Hrc Heq.
  pose proof (bit_of_positive _ Hs) as Bs.
  pose proof (bit_of_positive _ Hp) as Bp.
  pose proof (bit_of_positive _ Hr) as Br.
  pose proof (bit_of_positive _ Hc) as Bc.
  assert (Hps : Z.land (TraceProfile tb) (TraceStmt tb) = 0)
    by (rewrite Z.land_comm; exact Hsp).
  assert (Hrs : Z.land (TraceRow tb) (TraceStmt tb) = 0)
    by (rewrite Z.land_comm; exact Hsr).
  assert (Hcs : Z.land (TraceClose tb) (TraceStmt tb) = 0)
    by (rewrite Z.land_comm; exact Hsc).
  assert (Hrp : Z.land (TraceRow tb) (TraceProfile tb) = 0)
    by (rewrite Z.land_comm; exact Hpr).
  assert (Hcp : Z.land (TraceClose tb) (TraceProfile tb) = 0)
    by (rewrite Z.land_comm; exact Hpc).
  assert (Hcr : Z.land (TraceClose tb) (TraceRow tb) = 0)
    by (rewrite Z.land_comm; exact Hrc).
  assert (Hbit : forall n, Z.testbit (EventMask tb c) n = Z.testbit (EventMask tb c') n)
    by (intros n; rewrite Heq; reflexivity).
  assert (Hflag : forall x n,
             Z.testbit (EventMask tb x) n
             = (Stmt x && Z.testbit (TraceStmt tb) n)
               || (Profile x && Z.testbit (TraceProfile tb) n)
               || (Row x && Z.testbit (TraceRow tb) n)
               || (Close x && Z.testbit (TraceClose tb) n)).
  { intros x n. rewrite EventMask_bits. unfold bitIf. rewrite !Z.lor_spec.
    destruct (Stmt x), (Profile x), (Row x), (Close x);
      rewrite ?Z.bits_0; cbn [andb orb]; rewrite ?orb_false_r; reflexivity. }
  destruct c as [a1 a2 a3 a4], c' as [b1 b2 b3 b4].
  pose proof (Hbit (Z.log2 (TraceStmt tb))) as E1.
  pose proof (Hbit (Z.log2 (TraceProfile tb))) as E2.
  pose proof (Hbit (Z.log2 (TraceRow tb))) as E3.
  pose proof (Hbit (Z.log2 (TraceClose tb))) as E4.
  rewrite !Hflag in E1, E2, E3, E4. cbn [Stmt Profile Row Close] in *.
  rewrite Bs, (disjoint_bit _ _ _ Hsp Bs), (disjoint_bit _ _ _ Hsr Bs),
    (disjoint_bit _ _ _ Hsc Bs) in E1.
  rewrite Bp, (disjoint_bit _ _ _ Hps Bp), (disjoint_bit _ _ _ Hpr Bp),
    (disjoint_bit _ _ _ Hpc Bp) in E2.
  rewrite Br, (disjoint_bit _ _ _ Hrs Br), (disjoint_bit _ _ _ Hrp Br),
    (disjoint_bit _ _ _ Hrc Br) in E3.
  rewrite Bc, (disjoint_bit _ _ _ Hcs Bc), (disjoint_bit _ _ _ Hcp Bc),
    (disjoint_bit _ _ _ Hcr Bc) in E4.
  destruct a1, a2, a3, a4, b1, b2, b3, b4; cbn in E1, E2, E3, E4;
    first [reflexivity | discriminate].
Qed.

(** X6.  The long form tells the configuration as well: two configurations
    with the same list of flags are the same. *)
Theorem GenerateBoolArgs_injective (c c' : Config) :
  GenerateBoolArgs c = GenerateBoolArgs c' -> c = c'.
Proof.
  destruct c as [[] [] [] []], c' as [[] [] [] []];
    intros H; first [reflexivity | discriminate H].
Qed.

(** X7.  With no flag set the short form is the empty string and the long
    form is the bare prefix [--], and only then; in general the short form
    has one letter for each flag that is set. *)
Theorem renderings_of_no_flags (c : Config) :
  (GenerateStringArg c = EmptyString <-> c = zeroConfig)
  /\ (GenerateBoolArgs c = "--" <-> c = zeroConfig)
  /\ String.length (GenerateStringArg c) = flagCount c.
Proof.
  destruct c as [[] [] [] []]; repeat split; intros H;
    first [reflexivity | discriminate H].
Qed.

End MaskMore.

(** ** Further properties of [txWrap], and the draft [TxWrapErr] *)

Section WrapperMore.
Import WrapErr.
Context {ErrVal PanicVal D : Type}.

Implicit Types (db : @DB ErrVal D) (tx : @Tx ErrVal D) (s : @State D).

(** X8.  [Begin] fails: [txWrap] returns the error of [Begin]; the unit of
    work is not run, the package-level variables are as they were, and
    [Begin] is the only call. *)
Theorem txWrap_reports_begin_error db
        (txFunc : @Tx ErrVal D -> @Work PanicVal D unit) s0 txErr d1 :
  DB_Begin db (store s0) = (inr txErr, d1) ->
  txWrap db txFunc s0
  = (Returned (Some txErr), mkState (globals s0) d1 (calls s0 ++ [CallBegin])).
Proof. apply txWrap_begin_fails. Qed.

(** X9.  An error that [txWrap] returns is the error of [Begin] or the
    error of [Commit]: a rollback never shows in the result. *)
Theorem txWrap_error_origin db
        (txFunc : @Tx ErrVal D -> @Work PanicVal D unit) s0 e :
  fst (txWrap db txFunc s0) = Returned (Some e) ->
  (exists d1, DB_Begin db (store s0) = (inr e, d1))
  \/ (exists tx d1 u g2 d2,
         DB_Begin db (store s0) = (inl tx, d1)
         /\ txFunc tx (globals s0) d1 = (Returned u, g2, d2)
         /\ rollbackAlways g2 = false
         /\ fst (Tx_Commit tx d2) = Some e).
Proof.
  intros Hres.
  destruct (DB_Begin db (store s0)) as [[tx|txErr] d1] eqn:Hb.
  - right. destruct (txFunc tx (globals s0) d1) as [[[u|p] g2] d2] eqn:Hw.
    + destruct (rollbackAlways g2) eqn:Hr.
      * rewrite (txWrap_forced_rollback db txFunc s0 tx d1 u g2 d2 Hb Hw Hr) in Hres.
        discriminate Hres.
      * rewrite (txWrap_commit db txFunc s0 tx d1 u g2 d2 Hb Hw Hr) in Hres.
        cbn [fst] in Hres. injection Hres as Hres.
        exists tx, d1, u, g2, d2. repeat split; assumption.
    + rewrite (txWrap_panicked db txFunc s0 tx d1 p g2 d2 Hb Hw) in Hres.
      discriminate Hres.
  - left. rewrite (txWrap_begin_fails db txFunc s0 txErr d1 Hb) in Hres.
    cbn [fst] in Hres. injection Hres as ->. exists d1. reflexivity.
Qed.

Variable rc : @Recover ErrVal PanicVal.

Implicit Types (txFuncE : @Tx ErrVal D -> @Work PanicVal D (@error ErrVal)).

Ltac wrapErr_steps :=
  cbv beta iota zeta delta [TxWrapErr TxWrapErrDeferred callWork callMethod];
  cbn [store globals calls fst snd].

(** The four ways [TxWrapErr] goes once [Begin] has handed out a
    transaction. *)
Lemma TxWrapErr_panicked db txFuncE s0 tx d1 p g2 d2 :
  DB_Begin db (store s0) = (inl tx, d1) ->
  txFuncE tx (globals s0) d1 = (Panicked p, g2, d2) ->
  TxWrapErr rc db txFuncE s0
  = (Returned (Some (recovered rc p)),
     mkState g2 (snd (Tx_Rollback tx d2))
             (calls s0 ++ [CallBegin; CallTxFunc; CallRollback])).
Proof.
  intros Hb Hw. wrapErr_steps. rewrite Hb. wrapErr_steps. rewrite Hw.
  wrapErr_steps. destruct (Tx_Rollback tx d2) as [e d3]. wrapErr_steps.
  rewrite <- !app_assoc. reflexivity.
Qed.

Lemma TxWrapErr_failed db txFuncE s0 tx d1 e g2 d2 :
  DB_Begin db (store s0) = (inl tx, d1) ->
  txFuncE tx (globals s0) d1 = (Returned (Some e), g2, d2) ->
  TxWrapErr rc db txFuncE s0
  = (Returned (Some e),
     mkState g2 (snd (Tx_Rollback tx d2))
             (calls s0 ++ [CallBegin; CallTxFunc; CallRollback])).
Proof.
  intros Hb Hw. wrapErr_steps. rewrite Hb. wrapErr_steps. rewrite Hw.
  wrapErr_steps. destruct (Tx_Rollback tx d2) as [e' d3]. wrapErr_steps.
  rewrite <- !app_assoc. reflexivity.
Qed.

Lemma TxWrapErr_forced_rollback db txFuncE s0 tx d1 g2 d2 :
  DB_Begin db (store s0) = (inl tx, d1) ->
  txFuncE tx (globals s0) d1 = (Returned None, g2, d2) ->
  rollbackAlways g2 = true ->
  TxWrapErr rc db txFuncE s0
  = (Returned None,
     mkState g2 (snd (Tx_Rollback tx d2))
             (calls s0 ++ [CallBegin; CallTxFunc; CallRollback])).
Proof.
  intros Hb Hw Hr. wrapErr_steps. rewrite Hb. wrapErr_steps. rewrite Hw.
  wrapErr_steps. rewrite Hr. destruct (Tx_Rollback tx d2) as [e' d3].
  wrapErr_steps. rewrite <- !app_assoc. reflexivity.
Qed.

Lemma TxWrapErr_commit db txFuncE s0 tx d1 g2 d2 :
  DB_Begin db (store s0) = (inl tx, d1) ->
  txFuncE tx (globals s0) d1 = (Returned None, g2, d2) ->
  rollbackAlways g2 = false ->
  TxWrapErr rc db txFuncE s0
  = (Returned (fst (Tx_Commit tx d2)),
     mkState g2 (snd (Tx_Commit tx d2))
             (calls s0 ++ [CallBegin; CallTxFunc; CallCommit])).
Proof.
  intros Hb Hw Hr. wrapErr_steps. rewrite Hb. wrapErr_steps. rewrite Hw.
  wrapErr_steps. rewrite Hr. destruct (Tx_Commit tx d2) as [e' d3].
  wrapErr_steps. rewrite <- !app_assoc. reflexivity.
Qed.

Lemma TxWrapErr_begin_fails db txFuncE s0 txErr d1 :
  DB_Begin db (store s0) = (inr txErr, d1) ->
  TxWrapErr rc db txFuncE s0
  = (Returned (Some txErr), mkState (globals s0) d1 (calls s0 ++ [CallBegin])).
Proof.
  intros Hb. wrapErr_steps. rewrite Hb. reflexivity.
Qed.

(** X10.  [TxWrapErr] never ends in a panic, whatever the unit of work does:
    its deferred function recovers. *)
Theorem TxWrapErr_never_panics db txFuncE s0 :
  exists err, fst (TxWrapErr rc db txFuncE s0) = Returned err.
Proof.
  destruct (DB_Begin db (store s0)) as [[tx|txErr] d1] eqn:Hb.
  - destruct (txFuncE tx (globals s0) d1) as [[[[e|]|p] g2] d2] eqn:Hw.
    + rewrite (TxWrapErr_failed db txFuncE s0 tx d1 e g2 d2 Hb Hw).
      eexists. reflexivity.
    + destruct (rollbackAlways g2) eqn:Hr.
      * rewrite (TxWrapErr_forced_rollback db txFuncE s0 tx d1 g2 d2 Hb Hw Hr).
        eexists. reflexivity.
      * rewrite (TxWrapErr_commit db txFuncE s0 tx d1 g2 d2 Hb Hw Hr).
        eexists. reflexivity.
    + rewrite (TxWrapErr_panicked db txFuncE s0 tx d1 p g2 d2 Hb Hw).
      eexists. reflexivity.
  - rewrite (TxWrapErr_begin_fails db txFuncE s0 txErr d1 Hb).
    eexists. reflexivity.
Qed.

(** X11.  Once [Begin] has handed out a transaction, [TxWrapErr] calls
    exactly one of [Commit] and [Rollback], after the unit of work. *)
Theorem TxWrapErr_exactly_one_attempt db txFuncE s0 tx d1 :
  DB_Begin db (store s0) = (inl tx, d1) ->
  exists c,
    (c = CallCommit \/ c = CallRollback)
    /\ calls (snd (TxWrapErr rc db txFuncE s0))
       = (calls s0 ++ [CallBegin; CallTxFunc; c])%list.
Proof.
  intros Hb.
  destruct (txFuncE tx (globals s0) d1) as [[[[e|]|p] g2] d2] eqn:Hw.
  - exists CallRollback. split; [now right|].
    rewrite (TxWrapErr_failed db txFuncE s0 tx d1 e g2 d2 Hb Hw). reflexivity.
  - destruct (rollbackAlways g2) eqn:Hr.
    + exists CallRollback. split; [now right|].
      rewrite (TxWrapErr_forced_rollback db txFuncE s0 tx d1 g2 d2 Hb Hw Hr).
      reflexivity.
    + exists CallCommit. split; [now left|].
      rewrite (TxWrapErr_commit db txFuncE s0 tx d1 g2 d2 Hb Hw Hr). reflexivity.
  - exists CallRollback. split; [now right|].
    rewrite (TxWrapErr_panicked db txFuncE s0 tx d1 p g2 d2 Hb Hw). reflexivity.
Qed.

(** X12.  The unit of work panics with [p]: [TxWrapErr] rolls back and
    returns an error made of [p], which is [p] itself when [p] is an error and
    [fmt.Errorf("%s", p)] otherwise; [Commit] is not called. *)
Theorem TxWrapErr_turns_panic_into_error db txFuncE s0 tx d1 p g2 d2 :
  DB_Begin db (store s0) = (inl tx, d1) ->
  txFuncE tx (globals s0) d1 = (Panicked p, g2, d2) ->
  TxWrapErr rc db txFuncE s0
  = (Returned (Some (match asError rc p with
                     | Some e => e
                     | None => errorf rc p
                     end)),
     mkState g2 (snd (Tx_Rollback tx d2))
             (calls s0 ++ [CallBegin; CallTxFunc; CallRollback])).
Proof. apply TxWrapErr_panicked. Qed.

(** X13.  The unit of work returns an error: [TxWrapErr] rolls back, whatever
    the switch says, and returns that error, whatever [Rollback] returns. *)
Theorem TxWrapErr_rolls_back_on_error db txFuncE s0 tx d1 e g2 d2 :
  DB_Begin db (store s0) = (inl tx, d1) ->
  txFuncE tx (globals s0) d1 = (Returned (Some e), g2, d2) ->
  TxWrapErr rc db txFuncE s0
  = (Returned (Some e),
     mkState g2 (snd (Tx_Rollback tx d2))
             (calls s0 ++ [CallBegin; CallTxFunc; CallRollback])).
Proof. apply TxWrapErr_failed. Qed.

(** X14.  On a unit of work that reports its problems by a panic, the two
    wrappers make the same calls and leave the same state; they return the
    same when the unit of work returns, and when it panics with [p] the one
    panics with [p] where the other returns the error made of [p]. *)
Theorem txWrap_and_TxWrapErr_agree db
        (txFunc : @Tx ErrVal D -> @Work PanicVal D unit) s0 :
  snd (TxWrapErr rc db (fun tx => returningNil (txFunc tx)) s0)
  = snd (txWrap db txFunc s0)
  /\ match fst (txWrap db txFunc s0) with
     | Returned err =>
       fst (TxWrapErr rc db (fun tx => returningNil (txFunc tx)) s0) = Returned err
     | Panicked p =>
       fst (TxWrapErr rc db (fun tx => returningNil (txFunc tx)) s0)
       = Returned (Some (recovered rc p))
     end.
Proof.
  destruct (DB_Begin db (store s0)) as [[tx|txErr] d1] eqn:Hb.
  - destruct (txFunc tx (globals s0) d1) as [[[u|p] g2] d2] eqn:Hw.
    + assert (HwE : (fun tx => returningNil (ErrVal:=ErrVal) (txFunc tx)) tx (globals s0) d1
                    = (Returned None, g2, d2))
        by (unfold returningNil; rewrite Hw; reflexivity).
      destruct (rollbackAlways g2) eqn:Hr.
      * rewrite (txWrap_forced_rollback db txFunc s0 tx d1 u g2 d2 Hb Hw Hr).
        rewrite (TxWrapErr_forced_rollback db _ s0 tx d1 g2 d2 Hb HwE Hr).
        split; reflexivity.
      * rewrite (txWrap_commit db txFunc s0 tx d1 u g2 d2 Hb Hw Hr).
        rewrite (TxWrapErr_commit db _ s0 tx d1 g2 d2 Hb HwE Hr).
        split; reflexivity.
    + assert (HwE : (fun tx => returningNil (ErrVal:=ErrVal) (txFunc tx)) tx (globals s0) d1
                    = (Panicked p, g2, d2))
        by (unfold returningNil; rewrite Hw; reflexivity).
      rewrite (txWrap_panicked db txFunc s0 tx d1 p g2 d2 Hb Hw).
      rewrite (TxWrapErr_panicked db _ s0 tx d1 p g2 d2 Hb HwE).
      split; reflexivity.
  - rewrite (txWrap_begin_fails db txFunc s0 txErr d1 Hb).
    rewrite (TxWrapErr_begin_fails db _ s0 txErr d1 Hb).
    split; reflexivity.
Qed.

End WrapperMore.

(** ** Further properties of [dbMain] and [main] *)

Section MainMore.
Context {ErrVal PanicVal D : Type}.
Variable ext : @Externals ErrVal PanicVal D.

Implicit Types (db : @DB ErrVal D) (tx : @Tx ErrVal D) (s : @State D).

Lemma beginAttempts_app (l1 l2 : list Call) :
  beginAttempts (l1 ++ l2) = (beginAttempts l1 + beginAttempts l2)%nat.
Proof. unfold beginAttempts. rewrite filter_app, length_app. reflexivity. Qed.

Lemma endAttempts_app (l1 l2 : list Call) :
  endAttempts (l1 ++ l2) = (endAttempts l1 + endAttempts l2)%nat.
Proof.
  unfold endAttempts, commitAttempts, rollbackAttempts.
  rewrite !filter_app, !length_app. lia.
Qed.

Lemma quiet_app (l1 l2 : list Call) :
  filter isOpenOrClose l1 = [] -> filter isOpenOrClose l2 = [] ->
  filter isOpenOrClose (l1 ++ l2) = [].
Proof. intros H1 H2. rewrite filter_app, H1, H2. reflexivity. Qed.

Lemma counted_ret {A : Type} (Q : A -> Prop) (a : A) :
  Q a -> counted 0 Q (@ret PanicVal D A a).
Proof.
  intros Ha s. exists []. cbn. rewrite app_nil_r. repeat split. exact Ha.
Qed.

Lemma counted_bind {A B : Type} (n n' : nat) (Q : A -> Prop) (Q' : B -> Prop)
      (m : @M PanicVal D A) (k : A -> @M PanicVal D B) :
  counted n Q m -> (forall a, counted n' Q' (k a)) ->
  counted (n + n') Q' (bind m k).
Proof.
  intros Hm Hk s. unfold bind. destruct (Hm s) as [l1 [Hl1 [Hq1 H1]]].
  destruct (m s) as [[a|p] s1]; cbn [fst snd] in *.
  - destruct (Hk a s1) as [l2 [Hl2 [Hq2 H2]]]. exists (l1 ++ l2)%list.
    split; [rewrite Hl2, Hl1, app_assoc; reflexivity|].
    split; [apply quiet_app; assumption|].
    rewrite beginAttempts_app, endAttempts_app.
    destruct H1 as [_ [Hb1 He1]].
    destruct (fst (k a s1)); [destruct H2 as [HQ [Hb2 He2]] | destruct H2 as [Hb2 He2]].
    + split; [exact HQ|]. lia.
    + lia.
  - exists l1. split; [exact Hl1|]. split; [exact Hq1|]. lia.
Qed.

Lemma counted_callWork {A : Type} (name : string) (f : @Work PanicVal D A) :
  counted 0 (fun _ => True) (callWork (CallHelper name) f).
Proof.
  intros s. unfold callWork.
  destruct (f (globals s) (store s)) as [[[a|p] g] d]; exists [CallHelper name];
    cbn; repeat split; lia.
Qed.

Lemma counted_logPanic {A : Type} (n : nat) (Q : A -> Prop) (text : string) :
  counted n Q (@logPanic ErrVal PanicVal D ext A text).
Proof.
  intros s. exists [CallLog text]. cbn. repeat split; lia.
Qed.

Lemma counted_txWrapOrPanic db (f : @Tx ErrVal D -> @Work PanicVal D unit) :
  counted 1 (fun _ => True) (txWrapOrPanic ext db f).
Proof.
  intros s. unfold txWrapOrPanic, bind.
  destruct (DB_Begin db (store s)) as [[tx|txErr] d1] eqn:Hb.
  - destruct (f tx (globals s) d1) as [[[u|p] g2] d2] eqn:Hw.
    + destruct (rollbackAlways g2) eqn:Hr.
      * rewrite (txWrap_forced_rollback db f s tx d1 u g2 d2 Hb Hw Hr).
        exists [CallBegin; CallTxFunc; CallRollback]. cbn.
        repeat split; lia.
      * rewrite (txWrap_commit db f s tx d1 u g2 d2 Hb Hw Hr).
        destruct (fst (Tx_Commit tx d2)) as [e|].
        -- exists [CallBegin; CallTxFunc; CallCommit; CallLog (wrapperErrorText ext e)].
           cbn. rewrite <- ?app_assoc. repeat split; lia.
        -- exists [CallBegin; CallTxFunc; CallCommit]. cbn.
           repeat split; lia.
    + rewrite (txWrap_panicked db f s tx d1 p g2 d2 Hb Hw).
      exists [CallBegin; CallTxFunc; CallRollback]. cbn. repeat split; lia.
  - rewrite (txWrap_begin_fails db f s txErr d1 Hb).
    exists [CallBegin; CallLog (wrapperErrorText ext txErr)]. cbn.
    rewrite <- ?app_assoc. repeat split; lia.
Qed.

(** [dbMain] once [sql.Open] has handed out a database: after the call of
    [sql.Open] come calls that neither open nor close, among them four
    transactions begun and ended when [dbMain] returns, and last of all the
    call of [Close]. *)
Lemma dbMain_opened (filename : string) s db d1 :
  sqlOpen ext "sqlite3_tracing" filename (store s) = (inl db, d1) ->
  exists l,
    calls (snd (dbMain ext filename s))
    = (calls s ++ CallOpen "sqlite3_tracing" filename :: l ++ [CallClose])%list
    /\ filter isOpenOrClose l = []
    /\ match fst (dbMain ext filename s) with
       | Returned code =>
         code = 0 /\ beginAttempts l = 4%nat /\ endAttempts l = 4%nat
       | Panicked _ =>
         (endAttempts l <= beginAttempts l <= S (endAttempts l))%nat
         /\ (beginAttempts l <= 4)%nat
       end.
Proof.
  intros Ho.
  assert (Hbody : exists body,
             dbMain ext filename s
             = deferring (callMethod CallClose (DB_Close db)) body
                 (mkState (globals s) d1
                          (calls s ++ [CallOpen "sqlite3_tracing" filename]))
             /\ counted 4 (fun code => code = 0) body).
  { eexists. split.
    - unfold dbMain. unfold callMethod at 1. rewrite Ho. reflexivity.
    - change 4%nat
        with (0 + (0 + (0 + (1 + (0 + (1 + (0 + (1 + (0 + (1 + 0))))))))))%nat.
      apply counted_bind with (Q := fun _ => True).
      + intros s'. unfold callMethod. destruct (DB_Ping db (store s')) as [e d].
        exists [CallPing]. cbn. repeat split; lia.
      + intros [e|]; [apply counted_logPanic|].
        repeat (eapply counted_bind;
                [first [apply counted_callWork | apply counted_txWrapOrPanic]
                |intros _]).
        apply counted_ret. reflexivity. }
  destruct Hbody as [body [Heq Hc]]. rewrite Heq. unfold deferring.
  destruct (Hc (mkState (globals s) d1
                        (calls s ++ [CallOpen "sqlite3_tracing" filename])))
    as [l [Hl [Hq Hres]]].
  destruct (body _) as [o s2]. cbn [fst snd calls] in *. unfold callMethod.
  destruct (DB_Close db (store s2)) as [e d]. cbn [fst snd calls].
  exists l. rewrite Hl. rewrite <- !app_assoc.
  split; [reflexivity|]. split; [exact Hq|]. exact Hres.
Qed.

Lemma dbMain_open_failure_aux (filename : string) s err d1 :
  sqlOpen ext "sqlite3_tracing" filename (store s) = (inr err, d1) ->
  dbMain ext filename s
  = (Returned 1,
     mkState (globals s) d1
             (calls s ++ [CallOpen "sqlite3_tracing" filename;
                          CallPrint ("Failed to open database '" ++ filename ++ "': "
                                       ++ fmt_sharp_plus_v ext err ++ nl)])).
Proof.
  intros Ho. unfold dbMain, callMethod, logCall. rewrite Ho.
  cbn [fst snd globals store calls]. rewrite <- app_assoc. reflexivity.
Qed.

(** X15.  [dbMain] closes what it has opened and nothing else: when
    [sql.Open] fails it prints the failure and returns 1 without a call of
    [Ping] or of [Close]; when [sql.Open] hands out a database it closes it
    as its last call, exactly once, whether it returns or panics. *)
Theorem dbMain_closes_what_it_opened (filename : string) s :
  match sqlOpen ext "sqlite3_tracing" filename (store s) with
  | (inr err, d1) =>
    dbMain ext filename s
    = (Returned 1,
       mkState (globals s) d1
               (calls s ++ [CallOpen "sqlite3_tracing" filename;
                            CallPrint ("Failed to open database '" ++ filename ++ "': "
                                         ++ fmt_sharp_plus_v ext err ++ nl)]))
  | (inl db, d1) =>
    exists l,
      calls (snd (dbMain ext filename s))
      = (calls s ++ CallOpen "sqlite3_tracing" filename :: l ++ [CallClose])%list
      /\ filter isOpenOrClose l = []
  end.
Proof.
  destruct (sqlOpen ext "sqlite3_tracing" filename (store s)) as [[db|err] d1] eqn:Ho.
  - destruct (dbMain_opened filename s db d1 Ho) as [l [Hl [Hq _]]].
    exists l. split; assumption.
  - apply dbMain_open_failure_aux. exact Ho.
Qed.


(** X17.  [Ping] fails: [dbMain] logs the error and panics with its text,
    after closing the database; none of the functions that run statements is
    called and no transaction is begun. *)
Theorem dbMain_ping_failure (filename : string) s db d1 e d2 closeErr d3 :
  sqlOpen ext "sqlite3_tracing" filename (store s) = (inl db, d1) ->
  DB_Ping db d1 = (Some e, d2) ->
  DB_Close db d2 = (closeErr, d3) ->
  dbMain ext filename s
  = (Panicked (panicString ext (fmt_v ext e)),
     mkState (globals s) d3
             (calls s ++ [CallOpen "sqlite3_tracing" filename; CallPing;
                          CallLog (fmt_v ext e); CallClose])).
Proof.
  intros Ho Hp Hc. unfold dbMain, deferring, bind, logPanic, logCall, callMethod.
  rewrite Ho. cbn [fst snd globals store calls]. rewrite Hp.
  cbn [fst snd globals store calls]. rewrite Hc.
  rewrite <- !app_assoc. reflexivity.
Qed.


End MainMore.

(** ** The functions that run the statements *)

Section StatementFacts.
Import Statements.
Context {ErrVal PanicVal D : Type}.
Variable le : @LogEnv ErrVal PanicVal.

Implicit Types (st : @HState D).
Implicit Types (exec : list Arg -> D -> (@Result ErrVal + ErrVal) * D).

(** One turn of the loop: the statement is run; then either its result is
    logged and [rowSeqNum] goes up by one, or the error is logged and the
    turn panics with the package-level variables as they were. *)
Lemma insertStep_cases exec (call : list Arg -> SqlCall) (Descr : string) (i : Z) st :
  exists d text,
    (insertStep le exec call Descr i st
     = (Returned tt,
        mkHState (withRowSeqNum (hglobals st) (wrapInt (rowSeqNum (hglobals st) + 1))) d
                 (htrace st
                    ++ [call [ArgInt (rowSeqNum (hglobals st));
                              ArgString (noteTextPrefix ++ Descr)];
                        LogPrintf text])))
    \/ (insertStep le exec call Descr i st
        = (Panicked (log_panicString le text),
           mkHState (hglobals st) d
                    (htrace st
                       ++ [call [ArgInt (rowSeqNum (hglobals st));
                                 ArgString (noteTextPrefix ++ Descr)];
                           LogPanic text]))).
Proof.
  unfold insertStep, hbind, sqlCall, resultDoCheck, logPanicErr, logPrintf,
    incrRowSeqNum, note, withRowSeqNum.
  destruct (exec _ (hstore st)) as [[result|err] d].
  - destruct (LastInsertId result) as [id|err].
    + destruct (RowsAffected result) as [n|err].
      * eexists d, _. left. cbn [hglobals hstore htrace].
        rewrite <- app_assoc. reflexivity.
      * eexists d, _. right. cbn [hglobals hstore htrace].
        rewrite <- app_assoc. reflexivity.
    + eexists d, _. right. cbn [hglobals hstore htrace].
      rewrite <- app_assoc. reflexivity.
  - eexists d, _. right. cbn [hglobals hstore htrace].
    rewrite <- app_assoc. reflexivity.
Qed.

Lemma withRowSeqNum_same (g : Globals) : withRowSeqNum g (rowSeqNum g) = g.
Proof. destruct g; reflexivity. Qed.

Lemma bumped_succ (k : nat) (z : Z) : bumped k (wrapInt (z + 1)) = bumped (S k) z.
Proof.
  induction k as [|k IH]; [reflexivity|].
  change (bumped (S k) (wrapInt (z + 1)))
    with (wrapInt (bumped k (wrapInt (z + 1)) + 1)).
  rewrite IH. reflexivity.
Qed.

Lemma execCalls_app (l1 l2 : list SqlCall) :
  execCalls (l1 ++ l2) = (execCalls l1 + execCalls l2)%nat.
Proof. unfold execCalls. rewrite filter_app, length_app. reflexivity. Qed.

Lemma printed_app (l1 l2 : list SqlCall) :
  printed (l1 ++ l2) = (printed l1 + printed l2)%nat.
Proof. unfold printed. rewrite filter_app, length_app. reflexivity. Qed.

Lemma seqNums_app (l1 l2 : list SqlCall) :
  seqNums (l1 ++ l2) = (seqNums l1 ++ seqNums l2)%list.
Proof. unfold seqNums. apply flat_map_app. Qed.

(** What the loop does from the index [i] on.  [k] is the number of turns
    that are completed. *)
Lemma insertLoop_inv exec (call : list Arg -> SqlCall) (Descr : string) (i : Z) st :
  (forall args, execArgsOf (call args) = Some args) ->
  exists l k,
    htrace (snd (insertLoop le exec call Descr i st)) = (htrace st ++ l)%list
    /\ hglobals (snd (insertLoop le exec call Descr i st))
       = withRowSeqNum (hglobals st) (bumped k (rowSeqNum (hglobals st)))
    /\ printed l = k
    /\ seqNums l
       = map (fun j => bumped j (rowSeqNum (hglobals st))) (seq 0 (execCalls l))
    /\ filter isClosing l = []
    /\ match fst (insertLoop le exec call Descr i st) with
       | Returned _ =>
         execCalls l = k
         /\ Z.of_nat k = Z.max 0 (nRows (hglobals st) - i)
         /\ filter isLogPanic l = []
       | Panicked _ =>
         execCalls l = S k /\ Z.of_nat k < nRows (hglobals st) - i
       end.
Proof.
  intros Hcall. funelim (insertLoop le exec call Descr i st).
  - exists [], 0%nat. cbn [fst snd]. rewrite app_nil_r.
    pose proof (proj1 (Z.ltb_ge _ _) Hdone) as Hge. cbn. rewrite withRowSeqNum_same.
    repeat split; try reflexivity. lia.
  - clear Heqcall.
    repeat match goal with
           | E : {| pr1 := _; pr2 := _ |} = _ |- _ => clear E
           end.
    match goal with
    | IH : (forall args, _) -> exists _ _, _ |- _ =>
      destruct (IH Hcall) as [l' [k' [Ht [Hg [Hp [Hs [Hcl Hres]]]]]]]; clear IH
    end.
    destruct (insertStep_cases exec call Descr i st) as [d [text [Hc|Hc]]];
      rewrite Hc in Hstep; [|discriminate Hstep].
    injection Hstep as _ <-. clear Hc.
    cbn [hglobals htrace hstore withRowSeqNum nRows rowSeqNum] in *.
    set (seq0 := rowSeqNum (hglobals st)) in *.
    set (c := call [ArgInt seq0; ArgString (noteTextPrefix ++ Descr)]) in *.
    assert (Hc1 : isExec c = true) by (unfold isExec, c; rewrite Hcall; reflexivity).
    assert (Hc2 : seqNumOf c = [seq0]) by (unfold seqNumOf, c; rewrite Hcall; reflexivity).
    assert (Hc3 : isPrintf c = false /\ isClosing c = false /\ isLogPanic c = false).
    { pose proof (Hcall [ArgInt seq0; ArgString (noteTextPrefix ++ Descr)]) as Hx.
      fold c in Hx. destruct c; cbn in Hx; try discriminate Hx; repeat split. }
    destruct Hc3 as [Hc3 [Hc4 Hc5]].
    exists ([c; LogPrintf text] ++ l')%list, (S k').
    split; [rewrite Ht, <- app_assoc; reflexivity|].
    split; [rewrite Hg, bumped_succ; reflexivity|].
    split; [rewrite printed_app, Hp; unfold printed; cbn [filter];
            rewrite Hc3; reflexivity|].
    assert (He : execCalls ([c; LogPrintf text] ++ l') = S (execCalls l')).
    { rewrite execCalls_app. unfold execCalls at 1. cbn [filter].
      rewrite Hc1. reflexivity. }
    split.
    { rewrite seqNums_app, He, Hs. unfold seqNums at 1. cbn [flat_map seqNumOf].
      rewrite Hc2. cbn [app seq map execArgsOf].
      change (bumped 0 seq0) with seq0. f_equal.
      rewrite <- seq_shift, map_map. apply map_ext. intros j.
      apply bumped_succ. }
    split.
    { rewrite filter_app, Hcl. cbn [filter]. rewrite Hc4. reflexivity. }
    rewrite He. pose proof (proj1 (Z.ltb_lt _ _) Hlt) as Hlt'.
    destruct (fst (insertLoop le exec call Descr (i + 1) _)).
    + destruct Hres as [H1 [H2 H3]]. split; [lia|]. split; [lia|].
      rewrite filter_app, H3. cbn [filter]. rewrite Hc5. reflexivity.
    + destruct Hres as [H1 H2]. split; lia.
  - clear Heqcall.
    repeat match goal with
           | E : {| pr1 := _; pr2 := _ |} = _ |- _ => clear E
           end.
    destruct (insertStep_cases exec call Descr i st) as [d [text [Hc|Hc]]];
      rewrite Hc in Hpanic; [discriminate Hpanic|].
    injection Hpanic as _ <-. clear Hc.
    cbn [fst snd hglobals htrace].
    set (seq0 := rowSeqNum (hglobals st)) in *.
    set (c := call [ArgInt seq0; ArgString (noteTextPrefix ++ Descr)]) in *.
    assert (Hc1 : isExec c = true) by (unfold isExec, c; rewrite Hcall; reflexivity).
    assert (Hc2 : seqNumOf c = [seq0]) by (unfold seqNumOf, c; rewrite Hcall; reflexivity).
    assert (Hc3 : isPrintf c = false /\ isClosing c = false).
    { pose proof (Hcall [ArgInt seq0; ArgString (noteTextPrefix ++ Descr)]) as Hx.
      fold c in Hx. destruct c; cbn in Hx; try discriminate Hx; repeat split. }
    destruct Hc3 as [Hc3 Hc4].
    exists [c; LogPanic text], 0%nat.
    split; [reflexivity|].
    split; [cbn; rewrite withRowSeqNum_same; reflexivity|].
    split; [unfold printed; cbn [filter]; rewrite Hc3; reflexivity|].
    assert (He : execCalls [c; LogPanic text] = 1%nat)
      by (unfold execCalls; cbn [filter]; rewrite Hc1; reflexivity).
    split.
    { rewrite He. unfold seqNums. cbn [flat_map]. rewrite Hc2. reflexivity. }
    split; [cbn [filter]; rewrite Hc4; reflexivity|].
    pose proof (proj1 (Z.ltb_lt _ _) Hlt) as Hlt'. split; [exact He|lia].
Qed.

Lemma wrapInt_in_range (x : Z) : - 2 ^ 63 <= x < 2 ^ 63 -> wrapInt x = x.
Proof.
  intros Hx. unfold wrapInt. rewrite Z.mod_small by lia. lia.
Qed.

Lemma bumped_in_range (k : nat) (z : Z) :
  - 2 ^ 63 <= z -> z + Z.of_nat k < 2 ^ 63 -> bumped k z = z + Z.of_nat k.
Proof.
  intros Hlo. induction k as [|k IH]; intros Hhi.
  - cbn. lia.
  - change (bumped (S k) z) with (wrapInt (bumped k z + 1)).
    rewrite IH by lia. rewrite wrapInt_in_range by lia. lia.
Qed.

(** With a method that never fails, no turn of the loop panics. *)
Lemma insertLoop_returns exec (call : list Arg -> SqlCall) (Descr : string) (i : Z) st :
  alwaysInserts exec ->
  fst (insertLoop le exec call Descr i st) = Returned tt.
Proof.
  intros Hok. funelim (insertLoop le exec call Descr i st).
  - reflexivity.
  - match goal with
    | IH : alwaysInserts _ -> _ |- _ => apply IH; exact Hok
    end.
  - exfalso. clear Heqcall.
    repeat match goal with
           | E : {| pr1 := _; pr2 := _ |} = _ |- _ => clear E
           end.
    unfold insertStep, hbind, sqlCall in Hpanic.
    destruct (Hok [ArgInt (rowSeqNum (hglobals st));
                   ArgString (noteTextPrefix ++ Descr)] (hstore st))
      as [id [n [d' Hex]]].
    rewrite Hex in Hpanic. cbn in Hpanic. discriminate Hpanic.
Qed.

(** The loop whose test fails returns at once. *)
Lemma insertLoop_done exec (call : list Arg -> SqlCall) (Descr : string) (i : Z) st :
  (i <? nRows (hglobals st)) = false ->
  insertLoop le exec call Descr i st = (Returned tt, st).
Proof.
  intros Hn. funelim (insertLoop le exec call Descr i st).
  - reflexivity.
  - congruence.
  - congruence.
Qed.

(** The two functions that insert without preparing are the loop from the
    index 0 on. *)
Lemma plainInsert_loop (run : @Conn ErrVal D -> @H PanicVal D unit)
      (db : @Conn ErrVal D) :
  run = dbDoInsert le \/ run = txDoInsert le ->
  exists Descr,
    run db = insertLoop le (Conn_Exec db insertDML) (SqlExec insertDML) Descr 0.
Proof.
  intros [-> | ->]; eexists; reflexivity.
Qed.

(** X19.  [dbDoInsert] and [txDoInsert] keep [rowSeqNum] in step with the
    inserts: when they are left, by a return or by a panic, [rowSeqNum] has
    gone up once for each result logged, every statement run was bound to the
    value [rowSeqNum] had at that moment, and the other package-level
    variables are as they were.  On a return as many statements were run as
    results logged, [nRows] of them (none when [nRows] is negative); on a
    panic one statement more was run than results were logged, and fewer
    results than [nRows]. *)
Theorem inserts_keep_rowSeqNum_in_step
        (run : @Conn ErrVal D -> @H PanicVal D unit) (db : @Conn ErrVal D) st :
  run = dbDoInsert le \/ run = txDoInsert le ->
  exists l,
    htrace (snd (run db st)) = (htrace st ++ l)%list
    /\ hglobals (snd (run db st))
       = withRowSeqNum (hglobals st)
                       (bumped (printed l) (rowSeqNum (hglobals st)))
    /\ seqNums l
       = map (fun j => bumped j (rowSeqNum (hglobals st))) (seq 0 (execCalls l))
    /\ match fst (run db st) with
       | Returned _ =>
         execCalls l = printed l
         /\ Z.of_nat (printed l) = Z.max 0 (nRows (hglobals st))
       | Panicked _ =>
         execCalls l = S (printed l)
         /\ Z.of_nat (printed l) < nRows (hglobals st)
       end.
Proof.
  intros Hrun. destruct (plainInsert_loop run db Hrun) as [Descr ->].
  destruct (insertLoop_inv (Conn_Exec db insertDML) (SqlExec insertDML) Descr 0 st)
    as [l [k [Ht [Hg [Hp [Hs [_ Hres]]]]]]]; [reflexivity|].
  exists l. subst k. split; [exact Ht|]. split; [exact Hg|]. split; [exact Hs|].
  destruct (fst (insertLoop le _ _ Descr 0 st)).
  - destruct Hres as [H1 [H2 _]]. split; [exact H1|]. rewrite H2. f_equal. lia.
  - destruct Hres as [H1 H2]. split; [exact H1|]. lia.
Qed.

(** X20.  With [nRows] zero or negative, [dbDoInsert] and [txDoInsert]
    return at once: no statement is run, nothing is logged and nothing
    changes. *)
Theorem inserts_do_nothing_without_rows
        (run : @Conn ErrVal D -> @H PanicVal D unit) (db : @Conn ErrVal D) st :
  run = dbDoInsert le \/ run = txDoInsert le ->
  nRows (hglobals st) <= 0 ->
  run db st = (Returned tt, st).
Proof.
  intros Hrun Hn. destruct (plainInsert_loop run db Hrun) as [Descr ->].
  apply insertLoop_done. apply Z.ltb_ge. exact Hn.
Qed.

(** X21.  When the database runs every insert and [rowSeqNum] does not
    overflow, [dbDoInsert] and [txDoInsert] return after [nRows] inserts,
    bound to [rowSeqNum], [rowSeqNum + 1], ... in this order, and leave
    [rowSeqNum] higher by [nRows]. *)
Theorem inserts_number_rows_consecutively
        (run : @Conn ErrVal D -> @H PanicVal D unit) (db : @Conn ErrVal D) st :
  run = dbDoInsert le \/ run = txDoInsert le ->
  alwaysInserts (Conn_Exec db insertDML) ->
  - 2 ^ 63 <= rowSeqNum (hglobals st) ->
  rowSeqNum (hglobals st) + Z.max 0 (nRows (hglobals st)) < 2 ^ 63 ->
  exists l,
    fst (run db st) = Returned tt
    /\ htrace (snd (run db st)) = (htrace st ++ l)%list
    /\ hglobals (snd (run db st))
       = withRowSeqNum (hglobals st)
                       (rowSeqNum (hglobals st) + Z.max 0 (nRows (hglobals st)))
    /\ seqNums l
       = map (fun j => rowSeqNum (hglobals st) + Z.of_nat j)
             (seq 0 (Z.to_nat (nRows (hglobals st)))).
Proof.
  intros Hrun Hok Hlo Hhi. destruct (plainInsert_loop run db Hrun) as [Descr ->].
  pose proof (insertLoop_returns (Conn_Exec db insertDML) (SqlExec insertDML)
                Descr 0 st Hok) as Hret.
  destruct (insertLoop_inv (Conn_Exec db insertDML) (SqlExec insertDML) Descr 0 st)
    as [l [k [Ht [Hg [Hp [Hs [_ Hres]]]]]]]; [reflexivity|].
  rewrite Hret in Hres. destruct Hres as [He [Hk _]].
  exists l. split; [exact Hret|]. split; [exact Ht|].
  assert (Hk' : Z.of_nat k = Z.max 0 (nRows (hglobals st))) by (rewrite Hk; f_equal; lia).
  split.
  - rewrite Hg, bumped_in_range by lia. rewrite Hk'. reflexivity.
  - rewrite Hs, He. replace (Z.to_nat (nRows (hglobals st))) with k by lia.
    apply map_ext_in. intros j Hj. apply in_seq in Hj.
    apply bumped_in_range; lia.
Qed.

Ltac h_steps :=
  cbv beta iota zeta delta [hbind hdefer sqlCall logPanicErr hret note
                            rowsDoFetch rowsNextLoop];
  cbn [hglobals hstore htrace fst snd].

(** X22.  [dbDoInsertPrepared] and [txDoInsertPrepared]: when [Prepare]
    fails they log the error and panic, and no statement is closed; when it
    hands out a statement they close it as their last call, exactly once,
    whether the inserts succeed or one of them panics, and [rowSeqNum] has
    gone up once for each result logged. *)
Theorem prepared_inserts_close_statement
        (run : @Conn ErrVal D -> @H PanicVal D unit) (db : @Conn ErrVal D) st :
  run = dbDoInsertPrepared le \/ run = txDoInsertPrepared le ->
  match Conn_Prepare db insertDML (hstore st) with
  | (inr err, d) =>
    run db st
    = (Panicked (log_panicString le (log_fmt_v le err)),
       mkHState (hglobals st) d
                (htrace st ++ [SqlPrepare insertDML; LogPanic (log_fmt_v le err)]))
  | (inl stmt, d) =>
    exists l,
      htrace (snd (run db st))
      = (htrace st ++ SqlPrepare insertDML :: l ++ [StmtClose])%list
      /\ filter isClosing l = []
      /\ hglobals (snd (run db st))
         = withRowSeqNum (hglobals st)
                         (bumped (printed l) (rowSeqNum (hglobals st)))
  end.
Proof.
  intros Hrun.
  assert (Hloop : exists Descr,
             run db
             = hbind (sqlCall (SqlPrepare insertDML) (Conn_Prepare db insertDML))
                 (fun r => match r with
                           | inr err => logPanicErr le err
                           | inl stmt =>
                             hdefer (sqlCall StmtClose (Stmt_Close stmt))
                                    (insertLoop le (Stmt_Exec stmt) StmtExec Descr 0)
                           end))
    by (destruct Hrun as [-> | ->]; eexists; reflexivity).
  destruct Hloop as [Descr ->].
  destruct (Conn_Prepare db insertDML (hstore st)) as [[stmt|err] d] eqn:Hp.
  - h_steps. rewrite Hp. h_steps.
    destruct (insertLoop_inv (Stmt_Exec stmt) StmtExec Descr 0
                (mkHState (hglobals st) d (htrace st ++ [SqlPrepare insertDML])))
      as [l [k [Ht [Hg [Hpr [_ [Hcl _]]]]]]]; [reflexivity|].
    destruct (insertLoop le (Stmt_Exec stmt) StmtExec Descr 0 _) as [o st1].
    cbn [fst snd hglobals hstore htrace] in *.
    destruct (Stmt_Close stmt (hstore st1)) as [e d'].
    cbn [fst snd hglobals hstore htrace].
    exists l. subst k. rewrite Ht, <- !app_assoc.
    split; [reflexivity|]. split; [exact Hcl|exact Hg].
  - h_steps. rewrite Hp. h_steps. rewrite <- app_assoc. reflexivity.
Qed.

Lemma rowsDoFetch_run (rows : @Rows ErrVal D) st :
  rowsDoFetch le rows st
  = (fetchOutcome le rows,
     mkHState (hglobals st) (hstore st) (htrace st ++ fetchCalls le rows)).
Proof.
  unfold fetchCalls, fetchOutcome. h_steps.
  destruct (Rows_Err rows) as [e|]; h_steps;
    rewrite <- !app_assoc; reflexivity.
Qed.

(** X23.  [dbDoSelect] and [txDoSelect]: when [Query] fails they log the
    error and panic, and nothing is closed; when it hands out rows they call
    [Next] once more than there are rows, then [Err], and close the rows as
    their last call, also when [Err] reports an error and they panic with
    it.  The pattern bound is [noteTextPattern]; the package-level variables
    are as they were. *)
Theorem selects_close_rows
        (run : @Conn ErrVal D -> @H PanicVal D unit) (db : @Conn ErrVal D) st :
  run = dbDoSelect le \/ run = txDoSelect le ->
  match Conn_Query db selectDML [ArgString (noteTextPattern (hglobals st))] (hstore st) with
  | (inr err, d) =>
    run db st
    = (Panicked (log_panicString le (log_fmt_v le err)),
       mkHState (hglobals st) d
                (htrace st
                   ++ [SqlQuery selectDML [ArgString (noteTextPattern (hglobals st))];
                       LogPanic (log_fmt_v le err)]))
  | (inl rows, d) =>
    run db st
    = (fetchOutcome le rows,
       mkHState (hglobals st) (snd (Rows_Close rows d))
                (htrace st
                   ++ SqlQuery selectDML [ArgString (noteTextPattern (hglobals st))]
                   :: fetchCalls le rows ++ [RowsClose]))
  end.
Proof.
  intros Hrun.
  assert (Heq : run db st = dbDoSelect le db st)
    by (destruct Hrun as [-> | ->]; reflexivity).
  rewrite Heq. unfold dbDoSelect.
  destruct (Conn_Query db selectDML _ (hstore st)) as [[rows|err] d] eqn:Hq.
  - cbv beta iota zeta delta [hbind hdefer sqlCall].
    cbn [hglobals hstore htrace fst snd]. rewrite Hq.
    cbv beta iota zeta. rewrite rowsDoFetch_run.
    cbn [hglobals hstore htrace fst snd].
    destruct (Rows_Close rows d) as [e d'].
    cbn [hglobals hstore htrace fst snd].
    rewrite <- !app_assoc. reflexivity.
  - h_steps. rewrite Hq. h_steps. rewrite <- app_assoc. reflexivity.
Qed.

(** X24.  [dbDoSelectPrepared] and [txDoSelectPrepared] release what they
    hold in reverse order, on every path: nothing when [Prepare] fails; the
    statement when [Query] on it fails; the rows and then the statement
    when the rows were handed out, whether the fetch returns or panics. *)
Theorem prepared_selects_release_in_reverse
        (run : @Conn ErrVal D -> @H PanicVal D unit) (db : @Conn ErrVal D) st :
  run = dbDoSelectPrepared le \/ run = txDoSelectPrepared le ->
  match Conn_Prepare db selectDML (hstore st) with
  | (inr err, d) =>
    run db st
    = (Panicked (log_panicString le (log_fmt_v le err)),
       mkHState (hglobals st) d
                (htrace st ++ [SqlPrepare selectDML; LogPanic (log_fmt_v le err)]))
  | (inl stmt, d) =>
    match Stmt_Query stmt [ArgString (noteTextPattern (hglobals st))] d with
    | (inr err, d') =>
      run db st
      = (Panicked (log_panicString le (log_fmt_v le err)),
         mkHState (hglobals st) (snd (Stmt_Close stmt d'))
                  (htrace st
                     ++ [SqlPrepare selectDML;
                         StmtQuery [ArgString (noteTextPattern (hglobals st))];
                         LogPanic (log_fmt_v le err);
                         StmtClose]))
    | (inl rows, d') =>
      run db st
      = (fetchOutcome le rows,
         mkHState (hglobals st) (snd (Stmt_Close stmt (snd (Rows_Close rows d'))))
                  (htrace st
                     ++ SqlPrepare selectDML
                     :: StmtQuery [ArgString (noteTextPattern (hglobals st))]
                     :: fetchCalls le rows ++ [RowsClose; StmtClose]))
    end
  end.
Proof.
  intros Hrun.
  assert (Heq : run db st = dbDoSelectPrepared le db st)
    by (destruct Hrun as [-> | ->]; reflexivity).
  rewrite Heq. unfold dbDoSelectPrepared.
  destruct (Conn_Prepare db selectDML (hstore st)) as [[stmt|err] d] eqn:Hp.
  - destruct (Stmt_Query stmt _ d) as [[rows|err] d'] eqn:Hq.
    + cbv beta iota zeta delta [hbind hdefer sqlCall].
      cbn [hglobals hstore htrace fst snd]. rewrite Hp.
      cbv beta iota zeta. cbn [hglobals hstore htrace fst snd]. rewrite Hq.
      cbv beta iota zeta. rewrite rowsDoFetch_run.
      cbn [hglobals hstore htrace fst snd].
      destruct (Rows_Close rows d') as [e1 d1].
      cbn [hglobals hstore htrace fst snd].
      destruct (Stmt_Close stmt d1) as [e2 d2].
      cbn [hglobals hstore htrace fst snd].
      rewrite <- !app_assoc. reflexivity.
    + h_steps. rewrite Hp. h_steps. rewrite Hq. h_steps.
      destruct (Stmt_Close stmt d') as [e2 d2].
      cbn [hglobals hstore htrace fst snd].
      rewrite <- !app_assoc. reflexivity.
  - h_steps. rewrite Hp. h_steps. rewrite <- app_assoc. reflexivity.
Qed.

(** X25.  [dbSetup] drops the table and then creates it; when the drop
    fails the table is not created, and either failure is logged and
    panicked with.  The package-level variables are as they were. *)
Theorem dbSetup_drops_then_creates (db : @Conn ErrVal D) st :
  match Conn_Exec db "DROP TABLE IF EXISTS t1" [] (hstore st) with
  | (inr err, d) =>
    dbSetup le db st
    = (Panicked (log_panicString le (log_fmt_v le err)),
       mkHState (hglobals st) d
                (htrace st ++ [SqlExec "DROP TABLE IF EXISTS t1" [];
                               LogPanic (log_fmt_v le err)]))
  | (inl _, d) =>
    match Conn_Exec db tableDDL [] d with
    | (inr err, d') =>
      dbSetup le db st
      = (Panicked (log_panicString le (log_fmt_v le err)),
         mkHState (hglobals st) d'
                  (htrace st ++ [SqlExec "DROP TABLE IF EXISTS t1" [];
                                 SqlExec tableDDL [];
                                 LogPanic (log_fmt_v le err)]))
    | (inl _, d') =>
      dbSetup le db st
      = (Returned tt,
         mkHState (hglobals st) d'
                  (htrace st ++ [SqlExec "DROP TABLE IF EXISTS t1" [];
                                 SqlExec tableDDL []]))
    end
  end.
Proof.
  unfold dbSetup.
  destruct (Conn_Exec db "DROP TABLE IF EXISTS t1" [] (hstore st))
    as [[r|err] d] eqn:H1.
  - destruct (Conn_Exec db tableDDL [] d) as [[r'|err] d'] eqn:H2;
      h_steps; rewrite H1; h_steps; rewrite H2; h_steps;
      rewrite <- !app_assoc; reflexivity.
  - h_steps. rewrite H1. h_steps. rewrite <- !app_assoc. reflexivity.
Qed.

End StatementFacts.

(** ** The program as a whole *)

Section WholeFacts.
Import Statements.
Context {ErrVal PanicVal D : Type}.
Variable pf : @Platform ErrVal PanicVal D.

Local Abbreviation le := (logEnvOf pf).

Implicit Types (c : @Conn ErrVal D) (g : Globals) (d : D).

Lemma asWork_insertLoop (exec : list Arg -> D -> (@Result ErrVal + ErrVal) * D)
      (call : list Arg -> SqlCall) (Descr : string) g d :
  (forall args, execArgsOf (call args) = Some args) ->
  alwaysInserts exec ->
  - 2 ^ 63 <= rowSeqNum g ->
  rowSeqNum g + Z.max 0 (nRows g) < 2 ^ 63 ->
  exists d',
    insertLoop le exec call Descr 0 (mkHState g d [])
    = (Returned tt,
       mkHState (withRowSeqNum g (rowSeqNum g + Z.max 0 (nRows g))) d'
                (htrace (snd (insertLoop le exec call Descr 0 (mkHState g d []))))).
Proof.
  intros Hcall Hok Hlo Hhi.
  pose proof (insertLoop_returns le exec call Descr 0 (mkHState g d []) Hok) as Hret.
  destruct (insertLoop_inv le exec call Descr 0 (mkHState g d []) Hcall)
    as [l [k [_ [Hg [_ [_ [_ Hres]]]]]]].
  rewrite Hret in Hres. destruct Hres as [_ [Hk _]].
  cbn [hglobals] in *.
  destruct (insertLoop le exec call Descr 0 (mkHState g d [])) as [o [g' d' t']].
  cbn [fst snd hglobals htrace] in *. subst o.
  exists d'. rewrite Hg. rewrite bumped_in_range by lia.
  replace (Z.max 0 (nRows g - 0)) with (Z.max 0 (nRows g)) in Hk by (f_equal; lia).
  rewrite Hk. reflexivity.
Qed.

Lemma work_insert (run : @Conn ErrVal D -> @H PanicVal D unit) c g d :
  run = dbDoInsert le \/ run = txDoInsert le ->
  runsStatements c ->
  - 2 ^ 63 <= rowSeqNum g ->
  rowSeqNum g + Z.max 0 (nRows g) < 2 ^ 63 ->
  exists d',
    asWork (run c) g d
    = (Returned tt, withRowSeqNum g (rowSeqNum g + Z.max 0 (nRows g)), d').
Proof.
  intros Hrun [Hins _] Hlo Hhi.
  destruct (plainInsert_loop le run c Hrun) as [Descr ->].
  destruct (asWork_insertLoop (Conn_Exec c insertDML) (SqlExec insertDML) Descr g d)
    as [d' Heq]; try assumption; [reflexivity|].
  exists d'. unfold asWork. rewrite Heq. reflexivity.
Qed.

Lemma work_insertPrepared (run : @Conn ErrVal D -> @H PanicVal D unit) c g d :
  run = dbDoInsertPrepared le \/ run = txDoInsertPrepared le ->
  runsStatements c ->
  - 2 ^ 63 <= rowSeqNum g ->
  rowSeqNum g + Z.max 0 (nRows g) < 2 ^ 63 ->
  exists d',
    asWork (run c) g d
    = (Returned tt, withRowSeqNum g (rowSeqNum g + Z.max 0 (nRows g)), d').
Proof.
  intros Hrun [_ [_ [_ [Hprep _]]]] Hlo Hhi.
  destruct (Hprep insertDML d) as [stmt [d1 [Hp [Hins _]]]].
  assert (Hloop : exists Descr,
             run c
             = hbind (sqlCall (SqlPrepare insertDML) (Conn_Prepare c insertDML))
                 (fun r => match r with
                           | inr err => logPanicErr le err
                           | inl stmt =>
                             hdefer (sqlCall StmtClose (Stmt_Close stmt))
                                    (insertLoop le (Stmt_Exec stmt) StmtExec Descr 0)
                           end))
    by (destruct Hrun as [-> | ->]; eexists; reflexivity).
  destruct Hloop as [Descr ->].
  unfold asWork, hbind, hdefer, sqlCall. cbn [hglobals hstore htrace].
  rewrite Hp.
  pose proof (insertLoop_returns le (Stmt_Exec stmt) StmtExec Descr 0
                (mkHState g d1 ([] ++ [SqlPrepare insertDML])) Hins) as Hret.
  destruct (insertLoop_inv le (Stmt_Exec stmt) StmtExec Descr 0
              (mkHState g d1 ([] ++ [SqlPrepare insertDML])))
    as [l [k [_ [Hg [_ [_ [_ Hres]]]]]]]; [reflexivity|].
  rewrite Hret in Hres. destruct Hres as [_ [Hk _]].
  cbn [hglobals] in *.
  destruct (insertLoop le (Stmt_Exec stmt) StmtExec Descr 0 _) as [o [g' d' t']].
  cbn [fst snd hglobals hstore htrace] in *. subst o.
  destruct (Stmt_Close stmt d') as [e d2]. cbn [fst snd hglobals hstore].
  exists d2. rewrite Hg, bumped_in_range by lia.
  replace (Z.max 0 (nRows g - 0)) with (Z.max 0 (nRows g)) in Hk by (f_equal; lia).
  rewrite Hk. reflexivity.
Qed.

Lemma work_select (run : @Conn ErrVal D -> @H PanicVal D unit) c g d :
  run = dbDoSelect le \/ run = txDoSelect le ->
  runsStatements c ->
  exists d', asWork (run c) g d = (Returned tt, g, d').
Proof.
  intros Hrun [_ [_ [_ [_ Hq]]]].
  destruct (Hq selectDML [ArgString (noteTextPattern g)] d) as [rows [d1 [Hq1 Herr]]].
  pose proof (selects_close_rows le run c (mkHState g d []) Hrun) as Hsel.
  cbn [hglobals hstore htrace] in Hsel. rewrite Hq1 in Hsel.
  unfold asWork. rewrite Hsel. unfold fetchOutcome. rewrite Herr.
  eexists. reflexivity.
Qed.

Lemma work_selectPrepared (run : @Conn ErrVal D -> @H PanicVal D unit) c g d :
  run = dbDoSelectPrepared le \/ run = txDoSelectPrepared le ->
  runsStatements c ->
  exists d', asWork (run c) g d = (Returned tt, g, d').
Proof.
  intros Hrun [_ [_ [_ [Hprep _]]]].
  destruct (Hprep selectDML d) as [stmt [d1 [Hp [_ Hq]]]].
  destruct (Hq [ArgString (noteTextPattern g)] d1) as [rows [d2 [Hq1 Herr]]].
  pose proof (prepared_selects_release_in_reverse le run c (mkHState g d []) Hrun)
    as Hsel.
  cbn [hglobals hstore htrace] in Hsel. rewrite Hp, Hq1 in Hsel.
  unfold asWork. rewrite Hsel. unfold fetchOutcome. rewrite Herr.
  eexists. reflexivity.
Qed.

Lemma work_setup c g d :
  runsStatements c ->
  exists d', asWork (dbSetup le c) g d = (Returned tt, g, d').
Proof.
  intros [_ [Hdrop [Hcreate _]]].
  destruct (Hdrop d) as [r [d1 H1]]. destruct (Hcreate d1) as [r' [d2 H2]].
  pose proof (dbSetup_drops_then_creates le c (mkHState g d [])) as Hs.
  cbn [hglobals hstore htrace] in Hs. rewrite H1, H2 in Hs.
  unfold asWork. rewrite Hs. eexists. reflexivity.
Qed.

Lemma withRowSeqNum_twice g (x y : Z) :
  withRowSeqNum (withRowSeqNum g x) y = withRowSeqNum g y.
Proof. reflexivity. Qed.

Lemma commitAttempts_app (l1 l2 : list Call) :
  commitAttempts (l1 ++ l2) = (commitAttempts l1 + commitAttempts l2)%nat.
Proof. unfold commitAttempts. rewrite filter_app, length_app. reflexivity. Qed.

Lemma rollbackAttempts_app (l1 l2 : list Call) :
  rollbackAttempts (l1 ++ l2) = (rollbackAttempts l1 + rollbackAttempts l2)%nat.
Proof. unfold rollbackAttempts. rewrite filter_app, length_app. reflexivity. Qed.

Section Steps.
Variables (N : Z) (b : bool).

Lemma stepOk_ret {A : Type} (a : A) : stepOk N b 0 0 0 a (@ret PanicVal D A a).
Proof.
  intros s HN Hb Hlo Hhi. exists (store s), [].
  unfold ret. rewrite app_nil_r. cbn [Z.of_nat]. rewrite Z.mul_0_l, Z.add_0_r.
  rewrite withRowSeqNum_same. destruct s; repeat split.
Qed.

Lemma stepOk_bind {A B : Type} (k1 c1 r1 k2 c2 r2 : nat) (a : A) (a' : B)
      (m : @M PanicVal D A) (k : A -> @M PanicVal D B) :
  stepOk N b k1 c1 r1 a m ->
  stepOk N b k2 c2 r2 a' (k a) ->
  stepOk N b (k1 + k2) (c1 + c2) (r1 + r2) a' (bind m k).
Proof.
  intros Hm Hk s HN Hb Hlo Hhi.
  assert (HN0 : 0 <= N) by lia.
  destruct (Hm s HN Hb Hlo) as [d1 [l1 [E1 [C1 R1]]]]; [nia|].
  unfold bind. rewrite E1.
  destruct (Hk (mkState (withRowSeqNum (globals s)
                           (rowSeqNum (globals s) + Z.of_nat k1 * N))
                        d1 (calls s ++ l1)))
    as [d2 [l2 [E2 [C2 R2]]]]; cbn [globals withRowSeqNum nRows rollbackAlways rowSeqNum];
    try assumption; try nia.
  rewrite E2. cbn [globals calls withRowSeqNum nRows rollbackAlways rowSeqNum noteTextPattern].
  exists d2, (l1 ++ l2)%list.
  rewrite commitAttempts_app, rollbackAttempts_app, C1, C2, R1, R2.
  repeat split. f_equal. f_equal.
  - unfold withRowSeqNum. f_equal. nia.
  - symmetry. apply app_assoc.
Qed.

Lemma stepOk_callWork (name : string) (k : nat) (f : @Work PanicVal D unit) :
  (forall g d,
      Z.max 0 (nRows g) = N -> - 2 ^ 63 <= rowSeqNum g ->
      rowSeqNum g + Z.of_nat k * N < 2 ^ 63 ->
      exists d', f g d = (Returned tt, withRowSeqNum g (rowSeqNum g + Z.of_nat k * N), d')) ->
  stepOk N b k 0 0 tt (callWork (CallHelper name) f).
Proof.
  intros Hf s HN Hb Hlo Hhi.
  destruct (Hf (globals s) (store s) HN Hlo Hhi) as [d' Heq].
  unfold callWork. rewrite Heq. exists d', [CallHelper name]. repeat split.
Qed.

Lemma stepOk_txWrapOrPanic (ext : @Externals ErrVal PanicVal D)
      (db : @DB ErrVal D) (k : nat)
      (f : @Tx ErrVal D -> @Work PanicVal D unit) :
  (forall d1, exists tx d2,
      DB_Begin db d1 = (inl tx, d2)
      /\ (forall d3, fst (Tx_Commit tx d3) = None)
      /\ forall g d,
           Z.max 0 (nRows g) = N -> - 2 ^ 63 <= rowSeqNum g ->
           rowSeqNum g + Z.of_nat k * N < 2 ^ 63 ->
           exists d',
             f tx g d
             = (Returned tt, withRowSeqNum g (rowSeqNum g + Z.of_nat k * N), d')) ->
  stepOk N b k (if b then 0 else 1) (if b then 1 else 0) tt (txWrapOrPanic ext db f).
Proof.
  intros Hdb s HN Hb Hlo Hhi.
  destruct (Hdb (store s)) as [tx [d2 [Hbeg [Hcom Hf]]]].
  destruct (Hf (globals s) d2 HN Hlo Hhi) as [d3 Hw].
  unfold txWrapOrPanic, bind.
  assert (Hr : rollbackAlways
                 (withRowSeqNum (globals s) (rowSeqNum (globals s) + Z.of_nat k * N))
               = b) by exact Hb.
  destruct b.
  - rewrite (txWrap_forced_rollback db f s tx d2 tt _ d3 Hbeg Hw Hr).
    exists (snd (Tx_Rollback tx d3)), [CallBegin; CallTxFunc; CallRollback].
    repeat split.
  - rewrite (txWrap_commit db f s tx d2 tt _ d3 Hbeg Hw Hr).
    rewrite (Hcom d3).
    exists (snd (Tx_Commit tx d3)), [CallBegin; CallTxFunc; CallCommit].
    repeat split.
Qed.

End Steps.

Lemma moves_one (N : Z) (f : @Work PanicVal D unit) :
  (forall g d,
      - 2 ^ 63 <= rowSeqNum g ->
      rowSeqNum g + Z.max 0 (nRows g) < 2 ^ 63 ->
      exists d',
        f g d = (Returned tt, withRowSeqNum g (rowSeqNum g + Z.max 0 (nRows g)), d')) ->
  forall g d,
    Z.max 0 (nRows g) = N -> - 2 ^ 63 <= rowSeqNum g ->
    rowSeqNum g + Z.of_nat 1 * N < 2 ^ 63 ->
    exists d', f g d = (Returned tt, withRowSeqNum g (rowSeqNum g + Z.of_nat 1 * N), d').
Proof.
  intros Hf g d HN Hlo Hhi. replace (Z.of_nat 1 * N) with N in * by lia.
  rewrite <- HN in *. apply Hf; assumption.
Qed.

Lemma moves_none (N : Z) (f : @Work PanicVal D unit) :
  (forall g d, exists d', f g d = (Returned tt, g, d')) ->
  forall g d,
    Z.max 0 (nRows g) = N -> - 2 ^ 63 <= rowSeqNum g ->
    rowSeqNum g + Z.of_nat 0 * N < 2 ^ 63 ->
    exists d', f g d = (Returned tt, withRowSeqNum g (rowSeqNum g + Z.of_nat 0 * N), d').
Proof.
  intros Hf g d _ _ _. replace (rowSeqNum g + Z.of_nat 0 * N) with (rowSeqNum g) by lia.
  rewrite withRowSeqNum_same. apply Hf.
Qed.

(** X26.  A transaction that is rolled back still uses up sequence numbers:
    when [txWrap] runs [txDoInsert] with the switch on and every insert
    succeeds, it returns [nil] after the rollback and [rowSeqNum] stays
    higher by [nRows]. *)
Theorem rolled_back_inserts_use_up_numbers (db : @DB ErrVal D) (s0 : @State D) tx d1 :
  DB_Begin db (store s0) = (inl tx, d1) ->
  runsStatements (txConn pf tx) ->
  rollbackAlways (globals s0) = true ->
  - 2 ^ 63 <= rowSeqNum (globals s0) ->
  rowSeqNum (globals s0) + Z.max 0 (nRows (globals s0)) < 2 ^ 63 ->
  exists d3,
    txWrap db (trysqlite3trace1.txDoInsert (externalsOf pf)) s0
    = (Returned None,
       mkState (withRowSeqNum (globals s0)
                  (rowSeqNum (globals s0) + Z.max 0 (nRows (globals s0))))
               d3 (calls s0 ++ [CallBegin; CallTxFunc; CallRollback])).
Proof.
  intros Hb Hc Hr Hlo Hhi.
  destruct (work_insert (txDoInsert le) (txConn pf tx) (globals s0) d1)
    as [d2 Hw]; try assumption; [right; reflexivity|].
  eexists.
  apply (txWrap_forced_rollback db (trysqlite3trace1.txDoInsert (externalsOf pf))
           s0 tx d1 tt _ d2 Hb Hw Hr).
Qed.

(** [dbMain] on a healthy platform. *)
Lemma dbMain_healthy (filename : string) (N : Z) (b : bool) :
  healthy pf ->
  stepOk N b 4 (if b then 0 else 4) (if b then 4 else 0) 0
         (dbMain (externalsOf pf) filename).
Proof.
  intros Hh s HN Hb Hlo Hhi.
  destruct (Hh filename (store s)) as [db [d1 [Ho [Hping [Hconn Hbeg]]]]].
  assert (Htx : forall (run : @Conn ErrVal D -> @H PanicVal D unit) k,
             (forall c g d, runsStatements c ->
                            Z.max 0 (nRows g) = N -> - 2 ^ 63 <= rowSeqNum g ->
                            rowSeqNum g + Z.of_nat k * N < 2 ^ 63 ->
                            exists d',
                              asWork (run c) g d
                              = (Returned tt,
                                 withRowSeqNum g (rowSeqNum g + Z.of_nat k * N), d')) ->
             stepOk N b k (if b then 0 else 1) (if b then 1 else 0) tt
                    (txWrapOrPanic (externalsOf pf) db
                                   (fun tx => asWork (run (txConn pf tx))))).
  { intros run k Hrun. apply stepOk_txWrapOrPanic. intros d0.
    destruct (Hbeg d0) as [tx [d2 [Hb1 [Hcom Hc]]]].
    exists tx, d2. split; [exact Hb1|]. split; [exact Hcom|].
    intros g d. apply Hrun. exact Hc. }
  assert (Hbody : exists body nk nc nr,
             dbMain (externalsOf pf) filename s
             = deferring (callMethod CallClose (DB_Close db)) body
                 (mkState (globals s) d1
                          (calls s ++ [CallOpen "sqlite3_tracing" filename]))
             /\ stepOk N b nk nc nr 0 body
             /\ nk = 4%nat /\ nc = (if b then 0 else 4)%nat
             /\ nr = (if b then 4 else 0)%nat).
  { eexists. eexists. eexists. eexists. split; [|split].
    - unfold dbMain. unfold callMethod at 1.
      change (sqlOpen (externalsOf pf)) with (pf_sqlOpen pf). rewrite Ho.
      reflexivity.
    - eapply stepOk_bind with (a := None).
      + intros s' _ _ _ _. unfold callMethod.
        pose proof (Hping (store s')) as Hp.
        destruct (DB_Ping db (store s')) as [e d]. cbn [fst] in Hp. subst e.
        exists d, [CallPing].
        replace (rowSeqNum (globals s') + Z.of_nat 0 * N)
          with (rowSeqNum (globals s')) by lia.
        rewrite withRowSeqNum_same. repeat split.
      + cbv beta iota.
        eapply stepOk_bind;
          [apply stepOk_callWork; apply moves_none; intros g d;
           apply work_setup; exact Hconn|].
        eapply stepOk_bind;
          [apply stepOk_callWork; apply moves_one; intros g d;
           apply (work_insert (dbDoInsert le)); [left; reflexivity|exact Hconn]|].
        eapply stepOk_bind;
          [apply (Htx (txDoInsert le) 1%nat); intros c g d Hc;
           apply moves_one; intros g' d';
           apply (work_insert (txDoInsert le)); [right; reflexivity|exact Hc]|].
        eapply stepOk_bind;
          [apply stepOk_callWork; apply moves_one; intros g d;
           apply (work_insertPrepared (dbDoInsertPrepared le));
           [left; reflexivity|exact Hconn]|].
        eapply stepOk_bind;
          [apply (Htx (txDoInsertPrepared le) 1%nat); intros c g d Hc;
           apply moves_one; intros g' d';
           apply (work_insertPrepared (txDoInsertPrepared le));
           [right; reflexivity|exact Hc]|].
        eapply stepOk_bind;
          [apply stepOk_callWork; apply moves_none; intros g d;
           apply (work_select (dbDoSelect le)); [left; reflexivity|exact Hconn]|].
        eapply stepOk_bind;
          [apply (Htx (txDoSelect le) 0%nat); intros c g d Hc;
           apply moves_none; intros g' d';
           apply (work_select (txDoSelect le)); [right; reflexivity|exact Hc]|].
        eapply stepOk_bind;
          [apply stepOk_callWork; apply moves_none; intros g d;
           apply (work_selectPrepared (dbDoSelectPrepared le));
           [left; reflexivity|exact Hconn]|].
        eapply stepOk_bind;
          [apply (Htx (txDoSelectPrepared le) 0%nat); intros c g d Hc;
           apply moves_none; intros g' d';
           apply (work_selectPrepared (txDoSelectPrepared le));
           [right; reflexivity|exact Hc]|].
        apply stepOk_ret.
    - split; [reflexivity|]. destruct b; split; reflexivity. }
  destruct Hbody as [body [nk [nc [nr [Heq [Hstep [-> [-> ->]]]]]]]].
  rewrite Heq. unfold deferring.
  destruct (Hstep (mkState (globals s) d1
                           (calls s ++ [CallOpen "sqlite3_tracing" filename])))
    as [d2 [l [E [HC HR]]]]; cbn [globals]; try assumption.
  rewrite E. unfold callMethod. cbn [store globals calls].
  destruct (DB_Close db d2) as [e d3].
  exists d3, ([CallOpen "sqlite3_tracing" filename] ++ l ++ [CallClose])%list.
  rewrite !commitAttempts_app, !rollbackAttempts_app, HC, HR.
  split; [rewrite <- !app_assoc; reflexivity|].
  cbn. destruct b; split; reflexivity.
Qed.

(** X27.  On a platform where nothing fails, [main] with a filename exits
    with code 0 after four transactions, all committed with the switch off
    and all rolled back with it on; in either case [rowSeqNum] ends higher by
    four times [nRows]: the inserts of the rolled-back transactions have used
    up their sequence numbers as well. *)
Theorem main_on_a_healthy_platform (args : CmdLine) (s0 : @State D) :
  healthy pf ->
  arg_db args <> EmptyString ->
  - 2 ^ 63 <= rowSeqNum (globals s0) ->
  rowSeqNum (globals s0) + 4 * Z.max 0 (arg_nrows args) < 2 ^ 63 ->
  exists l,
    fst (main (externalsOf pf) args s0) = ExitCode 0
    /\ calls (snd (main (externalsOf pf) args s0)) = (calls s0 ++ l)%list
    /\ globals (snd (main (externalsOf pf) args s0))
       = mkGlobals (arg_nrows args)
                   (rowSeqNum (globals s0) + 4 * Z.max 0 (arg_nrows args))
                   (arg_search_pat args) (arg_rollback args)
    /\ commitAttempts l = (if arg_rollback args then 0 else 4)%nat
    /\ rollbackAttempts l = (if arg_rollback args then 4 else 0)%nat.
Proof.
  intros Hh Hdb Hlo Hhi. unfold main.
  destruct (String.eqb_spec (arg_db args) EmptyString) as [He|_]; [contradiction|].
  match goal with
  | |- context [dbMain _ _ ?s5] =>
    destruct (dbMain_healthy (arg_db args) (Z.max 0 (arg_nrows args))
                (arg_rollback args) Hh s5 eq_refl eq_refl Hlo Hhi)
      as [d [l [E [HC HR]]]]
  end.
  rewrite E. cbn [fst snd calls globals].
  eexists. split; [reflexivity|]. split.
  - cbn [logCall calls globals store].
    rewrite <- !app_assoc. cbn [app]. reflexivity.
  - split.
    + cbn [logCall globals withRowSeqNum nRows rowSeqNum noteTextPattern
                   rollbackAlways].
      f_equal. change (Z.of_nat 4) with 4. reflexivity.
    + unfold commitAttempts, rollbackAttempts in *.
      cbn [filter isCommit isRollback]. rewrite HC, HR.
      destruct (arg_rollback args); split; reflexivity.
Qed.

End WholeFacts.

(** ** The properties on concrete runs *)

Module Runs.
Import Fake.

(** [Begin] fails: the wrapper has called neither [Commit] nor [Rollback],
    on a handle or otherwise, so not every call of the wrapper makes one of
    the two calls. *)
Lemma txWrap_begin_failure_attempts_nothing :
  txWrap (dbBeginFails "database is locked") (fun _ => workReturns) initialState
  = (Returned (Some "database is locked"),
     mkState initialGlobals (mkCounters 0 0) [CallBegin])
  /\ ~ (exists l,
          calls (snd (txWrap (dbBeginFails "database is locked")
                             (fun _ => workReturns) initialState))
          = (calls initialState ++ l)%list
          /\ (commitAttempts l + rollbackAttempts l = 1)%nat).
Proof.
  split; [reflexivity|].
  intros [l [Hl Hn]]. cbn in Hl. subst l. discriminate Hn.
Qed.

Lemma txWrap_exactly_one_attempt_run :
  DB_Begin (dbWith tx0) (store initialState) = (inl tx0, mkCounters 0 0)
  /\ exists l,
       calls (snd (txWrap (dbWith tx0) (fun _ => workPanics "constraint failed")
                          initialState))
       = (calls initialState ++ l)%list
       /\ (commitAttempts l + rollbackAttempts l = 1)%nat
       /\ ((commitAttempts l = 1%nat
            /\ store (snd (txWrap (dbWith tx0)
                                  (fun _ => workPanics "constraint failed")
                                  initialState))
               = snd (Tx_Commit tx0
                        (snd (workPanics "constraint failed"
                                (globals initialState) (mkCounters 0 0)))))
           \/ (rollbackAttempts l = 1%nat
               /\ store (snd (txWrap (dbWith tx0)
                                     (fun _ => workPanics "constraint failed")
                                     initialState))
                  = snd (Tx_Rollback tx0
                           (snd (workPanics "constraint failed"
                                   (globals initialState) (mkCounters 0 0)))))).
Proof.
  split; [reflexivity|].
  apply (txWrap_exactly_one_attempt
           (dbWith tx0) (fun _ => workPanics "constraint failed")
           initialState tx0 (mkCounters 0 0)).
  reflexivity.
Defined.

Lemma txWrap_commits_and_returns_commit_error_run :
  DB_Begin (dbWith txCommitFails) (store initialState)
  = (inl txCommitFails, mkCounters 0 0)
  /\ workReturns initialGlobals (mkCounters 0 0)
     = (Returned tt, initialGlobals, mkCounters 0 0)
  /\ rollbackAlways initialGlobals = false
  /\ Tx_Commit txCommitFails (mkCounters 0 0) = (Some "disk full", mkCounters 1 0)
  /\ txWrap (dbWith txCommitFails) (fun _ => workReturns) initialState
     = (Returned (Some "disk full"),
        mkState initialGlobals (mkCounters 1 0)
                (calls initialState ++ [CallBegin; CallTxFunc; CallCommit])).
Proof.
  repeat (split; [reflexivity|]).
  apply (txWrap_commits_and_returns_commit_error
           (dbWith txCommitFails) (fun _ => workReturns) initialState
           txCommitFails (mkCounters 0 0) tt initialGlobals (mkCounters 0 0)
           (Some "disk full") (mkCounters 1 0));
    reflexivity.
Defined.

Lemma txWrap_forced_rollback_instead_of_commit_run :
  DB_Begin (dbWith tx0) (store rollbackState) = (inl tx0, mkCounters 0 0)
  /\ workReturns (globals rollbackState) (mkCounters 0 0)
     = (Returned tt, globals rollbackState, mkCounters 0 0)
  /\ rollbackAlways (globals rollbackState) = true
  /\ Tx_Rollback tx0 (mkCounters 0 0) = (None, mkCounters 0 1)
  /\ exists l,
       txWrap (dbWith tx0) (fun _ => workReturns) rollbackState
       = (Returned None,
          mkState (globals rollbackState) (mkCounters 0 1) (calls rollbackState ++ l))
       /\ l = [CallBegin; CallTxFunc; CallRollback]
       /\ rollbackAttempts l = 1%nat /\ commitAttempts l = 0%nat.
Proof.
  repeat (split; [reflexivity|]).
  apply (txWrap_forced_rollback_instead_of_commit
           (dbWith tx0) (fun _ => workReturns) rollbackState
           tx0 (mkCounters 0 0) tt (globals rollbackState) (mkCounters 0 0)
           None (mkCounters 0 1));
    reflexivity.
Defined.

Lemma txWrap_rolls_back_and_repanics_run :
  DB_Begin (dbWith txRollbackFails) (store initialState)
  = (inl txRollbackFails, mkCounters 0 0)
  /\ workPanics "constraint failed" initialGlobals (mkCounters 0 0)
     = (Panicked "constraint failed", initialGlobals, mkCounters 0 0)
  /\ Tx_Rollback txRollbackFails (mkCounters 0 0)
     = (Some "no transaction", mkCounters 0 1)
  /\ txWrap (dbWith txRollbackFails) (fun _ => workPanics "constraint failed")
            initialState
     = (Panicked "constraint failed",
        mkState initialGlobals (mkCounters 0 1)
                (calls initialState ++ [CallBegin; CallTxFunc; CallRollback])).
Proof.
  repeat (split; [reflexivity|]).
  apply (txWrap_rolls_back_and_repanics
           (dbWith txRollbackFails) (fun _ => workPanics "constraint failed")
           initialState txRollbackFails (mkCounters 0 0) "constraint failed"
           initialGlobals (mkCounters 0 0) (Some "no transaction") (mkCounters 0 1));
    reflexivity.
Defined.

Lemma txWrap_rollback_is_silent_run :
  DB_Begin (dbWith txRollbackFails) (store rollbackState)
  = (inl txRollbackFails, mkCounters 0 0)
  /\ workReturns (globals rollbackState) (mkCounters 0 0)
     = (Returned tt, globals rollbackState, mkCounters 0 0)
  /\ Tx_Rollback txRollbackFails (mkCounters 0 0)
     = (Some "no transaction", mkCounters 0 1)
  /\ txWrap (dbWith txRollbackFails) (fun _ => workReturns) rollbackState
     = (Returned None,
        mkState (globals rollbackState) (mkCounters 0 1)
                (calls rollbackState ++ [CallBegin; CallTxFunc; CallRollback])).
Proof.
  repeat (split; [reflexivity|]).
  apply (proj1 (txWrap_rollback_is_silent
                  (dbWith txRollbackFails) (fun _ => workReturns) rollbackState
                  txRollbackFails (mkCounters 0 0) (Returned tt)
                  (globals rollbackState) (mkCounters 0 0)
                  (Some "no transaction") (mkCounters 0 1)
                  eq_refl eq_refl eq_refl) tt eq_refl eq_refl).
Defined.

Lemma main_exits_3_without_filename_run :
  arg_db noFlags = EmptyString
  /\ fst (main plainExternals noFlags initialState) = ExitCode 3
  /\ store (snd (main plainExternals noFlags initialState)) = store initialState
  /\ exists l,
       calls (snd (main plainExternals noFlags initialState))
       = (calls initialState ++ l)%list
       /\ forall driverName filename, ~ In (CallOpen driverName filename) l.
Proof.
  split; [reflexivity|].
  apply (main_exits_3_without_filename plainExternals noFlags initialState).
  reflexivity.
Defined.

(** The expanded text equals the statement text: the line is not the line
    without an annotation, it carries the note in its place. *)
Lemma traceCallback_notes_unchanged_expansion :
  ExpandedSQL (sampleInfo "SELECT 1" "SELECT 1" 0 0)
  = StmtOrTrigger (sampleInfo "SELECT 1" "SELECT 1" 0 0)
  /\ expandedText plainFmt (sampleInfo "SELECT 1" "SELECT 1" 0 0)
     = " no change when expanded"
  /\ expandedText plainFmt (sampleInfo "SELECT 1" "SELECT 1" 0 0) <> EmptyString
  /\ fst (traceCallback plainFmt (sampleInfo "SELECT 1" "SELECT 1" 0 0))
     = "Trace: ev 0x1, conn 0x10, stmt 0x20 {" ++ quote ++ "SELECT 1" ++ quote
         ++ "} no change when expanded; 1500 ns." ++ nl.
Proof.
  repeat split. discriminate.
Qed.

Lemma traceCallback_annotations_run :
  ExpandedSQL (sampleInfo "SELECT ?" "SELECT 1" 1 0) <> EmptyString
  /\ ExpandedSQL (sampleInfo "SELECT ?" "SELECT 1" 1 0)
     <> StmtOrTrigger (sampleInfo "SELECT ?" "SELECT 1" 1 0)
  /\ expandedText plainFmt (sampleInfo "SELECT ?" "SELECT 1" 1 0)
     = " expanded {" ++ quote ++ "SELECT 1" ++ quote ++ "}".
Proof.
  assert (H1 : ExpandedSQL (sampleInfo "SELECT ?" "SELECT 1" 1 0) <> EmptyString)
    by discriminate.
  assert (H2 : ExpandedSQL (sampleInfo "SELECT ?" "SELECT 1" 1 0)
               <> StmtOrTrigger (sampleInfo "SELECT ?" "SELECT 1" 1 0))
    by discriminate.
  split; [exact H1|]. split; [exact H2|].
  exact (proj1 (proj2 (proj2 (proj2
           (traceCallback_annotations plainFmt
              (sampleInfo "SELECT ?" "SELECT 1" 1 0))))) H1 H2).
Defined.

End Runs.

(** ** The further properties on concrete runs *)

Module MoreRuns.
Import Fake FakeSql WrapErr Statements.

Lemma fakeExec_alwaysInserts : alwaysInserts fakeExec.
Proof. intros args d. unfold fakeExec. eexists _, _, _. reflexivity. Qed.

Lemma fakeConn_runsStatements : runsStatements fakeConn.
Proof.
  split; [exact fakeExec_alwaysInserts|].
  split; [intros d; eexists _, _; reflexivity|].
  split; [intros d; eexists _, _; reflexivity|].
  split.
  - intros q d. exists fakeStmt, d. split; [reflexivity|].
    split; [exact fakeExec_alwaysInserts|].
    intros args d1. exists (fakeRows d1), d1. split; reflexivity.
  - intros q args d. exists (fakeRows d), d. split; reflexivity.
Qed.

Lemma fakePlatform_healthy : healthy fakePlatform.
Proof.
  intros filename d. exists fakeDB, d. split; [reflexivity|].
  split; [intros d1; reflexivity|].
  split; [exact fakeConn_runsStatements|].
  intros d1. exists fakeTx, (mkStore (table d1) (table d1)).
  split; [reflexivity|]. split; [intros d3; reflexivity|].
  exact fakeConn_runsStatements.
Qed.

Lemma GenerateStringArg_decodes_back_run :
  GenerateStringArg (mkConfig true false true false)
  = GenerateStringArg (mkConfig true false true false)
  /\ mkConfig true false true false = mkConfig true false true false.
Proof.
  split; [reflexivity|].
  apply (proj2 (GenerateStringArg_decodes_back (mkConfig true false true false)
                                               (mkConfig true false true false))).
  reflexivity.
Defined.

Lemma EventMask_fits_run :
  0 <= TraceStmt sqliteTraceBits < 2 ^ 32
  /\ 0 <= TraceProfile sqliteTraceBits < 2 ^ 32
  /\ 0 <= TraceRow sqliteTraceBits < 2 ^ 32
  /\ 0 <= TraceClose sqliteTraceBits < 2 ^ 32
  /\ 0 <= EventMask sqliteTraceBits (mkConfig true true false true) < 2 ^ 32.
Proof.
  assert (H1 : 0 <= TraceStmt sqliteTraceBits < 2 ^ 32) by (cbn; lia).
  assert (H2 : 0 <= TraceProfile sqliteTraceBits < 2 ^ 32) by (cbn; lia).
  assert (H3 : 0 <= TraceRow sqliteTraceBits < 2 ^ 32) by (cbn; lia).
  assert (H4 : 0 <= TraceClose sqliteTraceBits < 2 ^ 32) by (cbn; lia).
  repeat (split; [assumption|]).
  apply (EventMask_fits sqliteTraceBits 32 (mkConfig true true false true) H1 H2 H3 H4).
Defined.

Lemma EventMask_injective_run :
  EventMask sqliteTraceBits (mkConfig true false true false)
  = EventMask sqliteTraceBits (mkConfig true false true false)
  /\ mkConfig true false true false = mkConfig true false true false.
Proof.
  split; [reflexivity|].
  apply (EventMask_injective sqliteTraceBits); cbn; first [lia | reflexivity].
Defined.

Lemma GenerateBoolArgs_injective_run :
  GenerateBoolArgs (mkConfig false true false true)
  = GenerateBoolArgs (mkConfig false true false true)
  /\ mkConfig false true false true = mkConfig false true false true.
Proof.
  split; [reflexivity|].
  apply (GenerateBoolArgs_injective (mkConfig false true false true)). reflexivity.
Defined.

Lemma txWrap_reports_begin_error_run :
  DB_Begin (dbBeginFails "database is locked") (store initialState)
  = (inr "database is locked", mkCounters 0 0)
  /\ txWrap (dbBeginFails "database is locked") (fun _ => workReturns) initialState
     = (Returned (Some "database is locked"),
        mkState (globals initialState) (mkCounters 0 0)
                (calls initialState ++ [CallBegin])).
Proof.
  split; [reflexivity|].
  apply (txWrap_reports_begin_error (dbBeginFails "database is locked")
           (fun _ => workReturns) initialState "database is locked" (mkCounters 0 0)).
  reflexivity.
Defined.

Lemma txWrap_error_origin_run :
  fst (txWrap (dbWith txCommitFails) (fun _ => workReturns) initialState)
  = Returned (Some "disk full")
  /\ ((exists d1,
          DB_Begin (dbWith txCommitFails) (store initialState) = (inr "disk full", d1))
      \/ (exists tx d1 u g2 d2,
             DB_Begin (dbWith txCommitFails) (store initialState) = (inl tx, d1)
             /\ workReturns (globals initialState) d1 = (Returned u, g2, d2)
             /\ rollbackAlways g2 = false
             /\ fst (Tx_Commit tx d2) = Some "disk full")).
Proof.
  split; [reflexivity|].
  apply (txWrap_error_origin (dbWith txCommitFails) (fun _ => workReturns)
           initialState "disk full").
  reflexivity.
Defined.

Lemma TxWrapErr_exactly_one_attempt_run :
  DB_Begin (dbWith tx0) (store initialState) = (inl tx0, mkCounters 0 0)
  /\ exists c,
       (c = CallCommit \/ c = CallRollback)
       /\ calls (snd (TxWrapErr stringRecover (dbWith tx0)
                                (fun _ g d => (Returned (Some "no such table"), g, d))
                                initialState))
          = (calls initialState ++ [CallBegin; CallTxFunc; c])%list.
Proof.
  split; [reflexivity|].
  apply (TxWrapErr_exactly_one_attempt stringRecover (dbWith tx0)
           (fun _ g d => (Returned (Some "no such table"), g, d))
           initialState tx0 (mkCounters 0 0)).
  reflexivity.
Defined.

Lemma TxWrapErr_turns_panic_into_error_run :
  DB_Begin (dbWith tx0) (store initialState) = (inl tx0, mkCounters 0 0)
  /\ (Panicked "constraint failed", initialGlobals, mkCounters 0 0)
     = (@Panicked PanicVal (@error ErrVal) "constraint failed",
        initialGlobals, mkCounters 0 0)
  /\ TxWrapErr stringRecover (dbWith tx0)
               (fun _ g d => (Panicked "constraint failed", g, d)) initialState
     = (Returned (Some "constraint failed"),
        mkState initialGlobals (mkCounters 0 1)
                (calls initialState ++ [CallBegin; CallTxFunc; CallRollback])).
Proof.
  split; [reflexivity|]. split; [reflexivity|].
  apply (TxWrapErr_turns_panic_into_error stringRecover (dbWith tx0)
           (fun _ g d => (Panicked "constraint failed", g, d))
           initialState tx0 (mkCounters 0 0) "constraint failed"
           initialGlobals (mkCounters 0 0));
    reflexivity.
Defined.

Lemma TxWrapErr_rolls_back_on_error_run :
  DB_Begin (dbWith tx0) (store initialState) = (inl tx0, mkCounters 0 0)
  /\ (Returned (Some "no such table"), initialGlobals, mkCounters 0 0)
     = (@Returned PanicVal (@error ErrVal) (Some "no such table"),
        initialGlobals, mkCounters 0 0)
  /\ TxWrapErr stringRecover (dbWith tx0)
               (fun _ g d => (Returned (Some "no such table"), g, d)) initialState
     = (Returned (Some "no such table"),
        mkState initialGlobals (mkCounters 0 1)
                (calls initialState ++ [CallBegin; CallTxFunc; CallRollback])).
Proof.
  split; [reflexivity|]. split; [reflexivity|].
  apply (TxWrapErr_rolls_back_on_error stringRecover (dbWith tx0)
           (fun _ g d => (Returned (Some "no such table"), g, d))
           initialState tx0 (mkCounters 0 0) "no such table"
           initialGlobals (mkCounters 0 0));
    reflexivity.
Defined.

Lemma dbMain_ping_failure_run :
  sqlOpen deafExternals "sqlite3_tracing" "x.db" (store state3)
  = (inl deafDB, emptyStore)
  /\ DB_Ping deafDB emptyStore = (Some "unable to open database file", emptyStore)
  /\ DB_Close deafDB emptyStore = (None, emptyStore)
  /\ dbMain deafExternals "x.db" state3
     = (Panicked (panicString deafExternals
                    (fmt_v deafExternals "unable to open database file")),
        mkState (globals state3) emptyStore
                (calls state3
                   ++ [CallOpen "sqlite3_tracing" "x.db"; CallPing;
                       CallLog (fmt_v deafExternals "unable to open database file");
                       CallClose])).
Proof.
  repeat (split; [reflexivity|]).
  apply (dbMain_ping_failure deafExternals "x.db" state3 deafDB emptyStore
           "unable to open database file" emptyStore None emptyStore);
    reflexivity.
Defined.

Lemma inserts_keep_rowSeqNum_in_step_run :
  (@dbDoInsert _ _ Store fakeLogEnv = @dbDoInsert _ _ Store fakeLogEnv
   \/ @dbDoInsert _ _ Store fakeLogEnv = @txDoInsert _ _ Store fakeLogEnv)
  /\ exists l,
       htrace (snd (dbDoInsert fakeLogEnv brokenConn hstate3))
       = (htrace hstate3 ++ l)%list
       /\ hglobals (snd (dbDoInsert fakeLogEnv brokenConn hstate3))
          = withRowSeqNum (hglobals hstate3)
                          (bumped (printed l) (rowSeqNum (hglobals hstate3)))
       /\ seqNums l
          = map (fun j => bumped j (rowSeqNum (hglobals hstate3)))
                (seq 0 (execCalls l))
       /\ match fst (dbDoInsert fakeLogEnv brokenConn hstate3) with
          | Returned _ =>
            execCalls l = printed l
            /\ Z.of_nat (printed l) = Z.max 0 (nRows (hglobals hstate3))
          | Panicked _ =>
            execCalls l = S (printed l)
            /\ Z.of_nat (printed l) < nRows (hglobals hstate3)
          end.
Proof.
  split; [left; reflexivity|].
  apply (inserts_keep_rowSeqNum_in_step fakeLogEnv (dbDoInsert fakeLogEnv)
           brokenConn hstate3).
  left. reflexivity.
Defined.

Lemma inserts_do_nothing_without_rows_run :
  (@txDoInsert _ _ Store fakeLogEnv = @dbDoInsert _ _ Store fakeLogEnv
   \/ @txDoInsert _ _ Store fakeLogEnv = @txDoInsert _ _ Store fakeLogEnv)
  /\ nRows (hglobals hstateNoRows) <= 0
  /\ txDoInsert fakeLogEnv fakeConn hstateNoRows = (Returned tt, hstateNoRows).
Proof.
  assert (Hn : nRows (hglobals hstateNoRows) <= 0) by (cbn; lia).
  split; [right; reflexivity|]. split; [exact Hn|].
  apply (inserts_do_nothing_without_rows fakeLogEnv (txDoInsert fakeLogEnv)
           fakeConn hstateNoRows (or_intror eq_refl) Hn).
Defined.

Lemma inserts_number_rows_consecutively_run :
  (@dbDoInsert _ _ Store fakeLogEnv = @dbDoInsert _ _ Store fakeLogEnv
   \/ @dbDoInsert _ _ Store fakeLogEnv = @txDoInsert _ _ Store fakeLogEnv)
  /\ alwaysInserts (Conn_Exec fakeConn insertDML)
  /\ - 2 ^ 63 <= rowSeqNum (hglobals hstate3)
  /\ rowSeqNum (hglobals hstate3) + Z.max 0 (nRows (hglobals hstate3)) < 2 ^ 63
  /\ exists l,
       fst (dbDoInsert fakeLogEnv fakeConn hstate3) = Returned tt
       /\ htrace (snd (dbDoInsert fakeLogEnv fakeConn hstate3))
          = (htrace hstate3 ++ l)%list
       /\ hglobals (snd (dbDoInsert fakeLogEnv fakeConn hstate3))
          = withRowSeqNum (hglobals hstate3)
              (rowSeqNum (hglobals hstate3) + Z.max 0 (nRows (hglobals hstate3)))
       /\ seqNums l
          = map (fun j => rowSeqNum (hglobals hstate3) + Z.of_nat j)
                (seq 0 (Z.to_nat (nRows (hglobals hstate3)))).
Proof.
  assert (Hlo : - 2 ^ 63 <= rowSeqNum (hglobals hstate3)) by (cbn; lia).
  assert (Hhi : rowSeqNum (hglobals hstate3) + Z.max 0 (nRows (hglobals hstate3))
                < 2 ^ 63) by (cbn; lia).
  split; [left; reflexivity|]. split; [exact fakeExec_alwaysInserts|].
  split; [exact Hlo|]. split; [exact Hhi|].
  apply (inserts_number_rows_consecutively fakeLogEnv (dbDoInsert fakeLogEnv)
           fakeConn hstate3 (or_introl eq_refl) fakeExec_alwaysInserts Hlo Hhi).
Defined.

Lemma prepared_inserts_close_statement_run :
  (@dbDoInsertPrepared _ _ Store fakeLogEnv = @dbDoInsertPrepared _ _ Store fakeLogEnv
   \/ @dbDoInsertPrepared _ _ Store fakeLogEnv = @txDoInsertPrepared _ _ Store fakeLogEnv)
  /\ exists l,
       htrace (snd (dbDoInsertPrepared fakeLogEnv fakeConn hstate3))
       = (htrace hstate3 ++ SqlPrepare insertDML :: l ++ [StmtClose])%list
       /\ filter isClosing l = []
       /\ hglobals (snd (dbDoInsertPrepared fakeLogEnv fakeConn hstate3))
          = withRowSeqNum (hglobals hstate3)
                          (bumped (printed l) (rowSeqNum (hglobals hstate3))).
Proof.
  split; [left; reflexivity|].
  exact (prepared_inserts_close_statement fakeLogEnv (dbDoInsertPrepared fakeLogEnv)
           fakeConn hstate3 (or_introl eq_refl)).
Defined.

Lemma selects_close_rows_run :
  (@txDoSelect _ _ Store fakeLogEnv = @dbDoSelect _ _ Store fakeLogEnv
   \/ @txDoSelect _ _ Store fakeLogEnv = @txDoSelect _ _ Store fakeLogEnv)
  /\ txDoSelect fakeLogEnv fakeConn hstate3
     = (Returned tt,
        mkHState globals3 emptyStore
                 [SqlQuery selectDML [ArgString "bla%"]; RowsNext; RowsErr; RowsClose]).
Proof.
  split; [right; reflexivity|].
  exact (selects_close_rows fakeLogEnv (txDoSelect fakeLogEnv)
           fakeConn hstate3 (or_intror eq_refl)).
Defined.

Lemma prepared_selects_release_in_reverse_run :
  (@dbDoSelectPrepared _ _ Store fakeLogEnv = @dbDoSelectPrepared _ _ Store fakeLogEnv
   \/ @dbDoSelectPrepared _ _ Store fakeLogEnv = @txDoSelectPrepared _ _ Store fakeLogEnv)
  /\ dbDoSelectPrepared fakeLogEnv fakeConn hstate3
     = (Returned tt,
        mkHState globals3 emptyStore
                 [SqlPrepare selectDML; StmtQuery [ArgString "bla%"];
                  RowsNext; RowsErr; RowsClose; StmtClose]).
Proof.
  split; [left; reflexivity|].
  exact (prepared_selects_release_in_reverse fakeLogEnv
           (dbDoSelectPrepared fakeLogEnv) fakeConn hstate3 (or_introl eq_refl)).
Defined.

Lemma rolled_back_inserts_use_up_numbers_run :
  DB_Begin fakeDB (store (mkState (mkGlobals 3 10 "bla%" true) emptyStore []))
  = (inl fakeTx, emptyStore)
  /\ runsStatements (txConn fakePlatform fakeTx)
  /\ rollbackAlways (mkGlobals 3 10 "bla%" true) = true
  /\ - 2 ^ 63 <= 10
  /\ 10 + Z.max 0 3 < 2 ^ 63
  /\ exists d3,
       txWrap fakeDB (trysqlite3trace1.txDoInsert (externalsOf fakePlatform))
              (mkState (mkGlobals 3 10 "bla%" true) emptyStore [])
       = (Returned None,
          mkState (withRowSeqNum (mkGlobals 3 10 "bla%" true) (10 + Z.max 0 3))
                  d3 ([] ++ [CallBegin; CallTxFunc; CallRollback])).
Proof.
  assert (Hlo : - 2 ^ 63 <= 10) by lia.
  assert (Hhi : 10 + Z.max 0 3 < 2 ^ 63) by lia.
  split; [reflexivity|]. split; [exact fakeConn_runsStatements|].
  split; [reflexivity|]. split; [exact Hlo|]. split; [exact Hhi|].
  exact (rolled_back_inserts_use_up_numbers fakePlatform fakeDB
           (mkState (mkGlobals 3 10 "bla%" true) emptyStore [])
           fakeTx emptyStore eq_refl fakeConn_runsStatements eq_refl Hlo Hhi).
Defined.

Lemma main_on_a_healthy_platform_run :
  healthy fakePlatform
  /\ arg_db rollbackFlags <> EmptyString
  /\ - 2 ^ 63 <= rowSeqNum (globals state3)
  /\ rowSeqNum (globals state3) + 4 * Z.max 0 (arg_nrows rollbackFlags) < 2 ^ 63
  /\ exists l,
       fst (main (externalsOf fakePlatform) rollbackFlags state3) = ExitCode 0
       /\ calls (snd (main (externalsOf fakePlatform) rollbackFlags state3))
          = (calls state3 ++ l)%list
       /\ globals (snd (main (externalsOf fakePlatform) rollbackFlags state3))
          = mkGlobals (arg_nrows rollbackFlags)
                      (rowSeqNum (globals state3)
                       + 4 * Z.max 0 (arg_nrows rollbackFlags))
                      (arg_search_pat rollbackFlags) (arg_rollback rollbackFlags)
       /\ commitAttempts l = (if arg_rollback rollbackFlags then 0 else 4)%nat
       /\ rollbackAttempts l = (if arg_rollback rollbackFlags then 4 else 0)%nat.
Proof.
  assert (Hdb : arg_db rollbackFlags <> EmptyString) by discriminate.
  assert (Hlo : - 2 ^ 63 <= rowSeqNum (globals state3)) by (cbn; lia).
  assert (Hhi : rowSeqNum (globals state3) + 4 * Z.max 0 (arg_nrows rollbackFlags)
                < 2 ^ 63) by (cbn; lia).
  split; [exact fakePlatform_healthy|]. split; [exact Hdb|].
  split; [exact Hlo|]. split; [exact Hhi|].
  exact (main_on_a_healthy_platform fakePlatform rollbackFlags state3
           fakePlatform_healthy Hdb Hlo Hhi).
Defined.

End MoreRuns.
